(** * stack-inspector: a gdb command that lists, per stack frame, the
      arguments and local variables sorted by size.

    Shallow embedding of [stack-inspector.py].  The debugger objects the
    script reads (frames, blocks, symbols, types) are records holding the
    attributes the script accesses; console output and Python exceptions are
    threaded through a small writer/exception monad [Cmd]. *)

From Stdlib Require Import ZArith List Ascii String Bool Lia Permutation Sorted.
From Stdlib Require Import DecimalString HexadecimalString DecimalPos DecimalZ.
Import ListNotations.
Local Open Scope string_scope.
Local Open Scope list_scope.
Local Open Scope Z_scope.

(** ** The objects of gdb's Python API that the script inspects *)

Module gdb.

(** Address classes of a symbol ([gdb.SYMBOL_LOC_*]). *)
Inductive addr_class_t :=
| SYMBOL_LOC_UNDEF
| SYMBOL_LOC_CONST
| SYMBOL_LOC_STATIC
| SYMBOL_LOC_REGISTER
| SYMBOL_LOC_ARG
| SYMBOL_LOC_REF_ARG
| SYMBOL_LOC_REGPARM_ADDR
| SYMBOL_LOC_LOCAL
| SYMBOL_LOC_TYPEDEF
| SYMBOL_LOC_LABEL
| SYMBOL_LOC_BLOCK
| SYMBOL_LOC_CONST_BYTES
| SYMBOL_LOC_UNRESOLVED
| SYMBOL_LOC_OPTIMIZED_OUT
| SYMBOL_LOC_COMPUTED.

Definition addr_class_eqb (a b : addr_class_t) : bool :=
  match a, b with
  | SYMBOL_LOC_UNDEF, SYMBOL_LOC_UNDEF
  | SYMBOL_LOC_CONST, SYMBOL_LOC_CONST
  | SYMBOL_LOC_STATIC, SYMBOL_LOC_STATIC
  | SYMBOL_LOC_REGISTER, SYMBOL_LOC_REGISTER
  | SYMBOL_LOC_ARG, SYMBOL_LOC_ARG
  | SYMBOL_LOC_REF_ARG, SYMBOL_LOC_REF_ARG
  | SYMBOL_LOC_REGPARM_ADDR, SYMBOL_LOC_REGPARM_ADDR
  | SYMBOL_LOC_LOCAL, SYMBOL_LOC_LOCAL
  | SYMBOL_LOC_TYPEDEF, SYMBOL_LOC_TYPEDEF
  | SYMBOL_LOC_LABEL, SYMBOL_LOC_LABEL
  | SYMBOL_LOC_BLOCK, SYMBOL_LOC_BLOCK
  | SYMBOL_LOC_CONST_BYTES, SYMBOL_LOC_CONST_BYTES
  | SYMBOL_LOC_UNRESOLVED, SYMBOL_LOC_UNRESOLVED
  | SYMBOL_LOC_OPTIMIZED_OUT, SYMBOL_LOC_OPTIMIZED_OUT
  | SYMBOL_LOC_COMPUTED, SYMBOL_LOC_COMPUTED => true
  | _, _ => false
  end.

(** [gdb.Type]: the size in bytes and the text [str(type)] prints. *)
Record Type_ := mkType {
  sizeof : Z;
  type_str : string
}.

(** [gdb.Symbol], with the attributes read at lines 65-68. *)
Record Symbol := mkSymbol {
  name : string;
  type : Type_;
  is_argument : bool;
  is_variable : bool;
  addr_class : addr_class_t
}.

#[local] Unset Elimination Schemes.

(** [gdb.Block]: a lexical scope; iterating it yields [block_symbols] in
    order, and [superblock] is [None] at the outermost scope. *)
Inductive Block := mkBlock {
  is_global : bool;
  is_static : bool;
  block_symbols : list Symbol;
  superblock : option Block
}.

Record Symtab := mkSymtab {
  filename : string
}.

(** [gdb.Symtab_and_line], the result of [Frame.find_sal()]. *)
Record Symtab_and_line := mkSal {
  symtab : option Symtab;
  line : Z
}.

(** What gdb knows of the code a frame executes.  Without a function
    symbol for the frame (code without debugging information, or assembly
    that has line information only), [Frame.function()] is [None] and
    [Frame.block()] raises; with one, gdb returns the symbol, and the block
    unless it fails to retrieve it. *)
Inductive Code :=
| NoFunction
| InFunction (function : Symbol) (block : option Block).

(** [gdb.Frame].  [older] is [None] at the outermost frame;
    [read_register] gives the text of the register's value. *)
Inductive Frame := mkFrame {
  find_sal : Symtab_and_line;
  code : Code;
  pc : Z;
  read_register : string -> string;
  older : option Frame
}.

#[local] Set Elimination Schemes.

(** [Frame.function()]: the symbol of the frame's function, or [None]. *)
Definition function (frame : Frame) : option Symbol :=
  match code frame with
  | InFunction f _ => Some f
  | NoFunction => None
  end.

(** [Frame.block()]: [None] when the call raises [RuntimeError]. *)
Definition block (frame : Frame) : option Block :=
  match code frame with
  | InFunction _ b => b
  | NoFunction => None
  end.

(** The name of the frame's function, for a frame that has one. *)
Definition function_name (frame : Frame) : string :=
  match function frame with
  | Some f => name f
  | None => ""
  end.

End gdb.

(** ** Console output and exceptions *)

(** One constructor per kind of [print] call of the script.  [PrintLine]
    is a print of a literal text; the others carry the values substituted
    into the format string of the call. *)
Inductive Output :=
| PrintLine (text : string)
| PrintHeader (frame_nr : Z) (function filename : string) (line : Z)
| PrintFallbackHeader (frame_nr : Z)
| PrintRegisters (pc : Z) (sp fp : string)
| PrintSymbol (size : Z) (name : string) (typename : gdb.Type_).

(** The Python exceptions that occur in the script.  [gdb.error] derives
    from [RuntimeError], so a handler for the latter catches both;
    [AttributeError] is what reading an attribute of [None] raises. *)
Inductive exn := gdb_error | RuntimeError | AttributeError.

Definition isinstance (e cls : exn) : bool :=
  match cls, e with
  | RuntimeError, (RuntimeError | gdb_error) => true
  | gdb_error, gdb_error => true
  | AttributeError, AttributeError => true
  | _, _ => false
  end.

(** A command prints some output and then either raises or returns. *)
Definition Cmd (A : Type) : Type := (list Output * (exn + A))%type.

Definition ret {A} (a : A) : Cmd A := ([], inr a).

Definition raise {A} (e : exn) : Cmd A := ([], inl e).

Definition print (o : Output) : Cmd unit := ([o], inr tt).

Definition bind {A B} (m : Cmd A) (k : A -> Cmd B) : Cmd B :=
  match m with
  | (out, inl e) => (out, inl e)
  | (out, inr a) => let (out', r) := k a in (out ++ out', r)
  end.

(** [try: m  except cls: handler] *)
Definition try_except {A} (m : Cmd A) (cls : exn) (handler : Cmd A) : Cmd A :=
  match m with
  | (out, inl e) =>
      if isinstance e cls
      then let (out', r) := handler in (out ++ out', r)
      else (out, inl e)
  | (out, inr a) => (out, inr a)
  end.

Declare Scope cmd_scope.
Delimit Scope cmd_scope with cmd.
Notation "x <- m ;; k" := (bind m (fun x => k))
  (at level 61, m at next level, right associativity) : cmd_scope.
Notation "m ;; k" := (bind m (fun _ => k))
  (at level 61, right associativity) : cmd_scope.
Local Open Scope cmd_scope.

Definition output {A} (m : Cmd A) : list Output := fst m.
Definition result {A} (m : Cmd A) : exn + A := snd m.

(** ** The script *)

(** [Symbol = namedtuple('Symbol', ['size', 'typename'])] *)
Record Symbol := mkSymbol {
  size : Z;
  typename : gdb.Type_
}.

(** A Python [dict] keyed by strings, in insertion order. *)
Definition dict (V : Type) : Type := list (string * V).

(** [d.keys()] *)
Definition keys {V} (d : dict V) : list string := map fst d.

(** [key in d] *)
Fixpoint dict_contains {V} (d : dict V) (key : string) : bool :=
  match d with
  | [] => false
  | (k, _) :: d' => if String.eqb k key then true else dict_contains d' key
  end.

(** [d[key] = v]: an existing key keeps its position. *)
Fixpoint dict_setitem {V} (d : dict V) (key : string) (v : V) : dict V :=
  match d with
  | [] => [(key, v)]
  | (k, w) :: d' =>
      if String.eqb k key then (k, v) :: d'
      else (k, w) :: dict_setitem d' key v
  end.

(** [d[key]] *)
Fixpoint dict_get {V} (d : dict V) (key : string) : option V :=
  match d with
  | [] => None
  | (k, v) :: d' => if String.eqb k key then Some v else dict_get d' key
  end.

(** [OrderedDict(items)] *)
Definition OrderedDict {V} (items : list (string * V)) : dict V :=
  fold_left (fun d kv => dict_setitem d (fst kv) (snd kv)) items [].

(** The test of lines 65-66: the symbol lives on the call stack. *)
Definition on_call_stack (symbol : gdb.Symbol) : bool :=
  gdb.is_argument symbol
  || (gdb.is_variable symbol
      && negb (gdb.addr_class_eqb (gdb.addr_class symbol) gdb.SYMBOL_LOC_STATIC)).

(** Body of [for symbol in block] (lines 65-68). *)
Definition visit_symbol (symbols : dict Symbol) (symbol : gdb.Symbol)
  : dict Symbol :=
  if on_call_stack symbol then
    if negb (dict_contains symbols (gdb.name symbol)) then
      dict_setitem symbols (gdb.name symbol)
        (mkSymbol (gdb.sizeof (gdb.type symbol)) (gdb.type symbol))
    else symbols
  else symbols.

(** Body of [while block] (lines 60-68), before moving to the superblock. *)
Definition visit_block (symbols : dict Symbol) (block : gdb.Block)
  : dict Symbol :=
  if negb (gdb.is_global block || gdb.is_static block) then
    fold_left visit_symbol (gdb.block_symbols block) symbols
  else symbols.

(** The loop [while block: ...; block = block.superblock] (lines 59-70). *)
Fixpoint collect_symbols (block : gdb.Block) (symbols : dict Symbol)
  : dict Symbol :=
  let symbols' := visit_block symbols block in
  match gdb.superblock block with
  | Some sb => collect_symbols sb symbols'
  | None => symbols'
  end.

(** [sorted(items, key=lambda s: s[1].size, reverse=True)]: Python's sort is
    stable, and with [reverse=True] items of equal key keep their order. *)
Fixpoint insert_by_size (x : string * Symbol) (l : list (string * Symbol))
  : list (string * Symbol) :=
  match l with
  | [] => [x]
  | y :: l' =>
      if size (snd x) <? size (snd y) then y :: insert_by_size x l'
      else x :: y :: l'
  end.

Fixpoint sorted_by_size (items : list (string * Symbol))
  : list (string * Symbol) :=
  match items with
  | [] => []
  | x :: items' => insert_by_size x (sorted_by_size items')
  end.

(** Lines 58-74: the symbols of a frame, as they are printed. *)
Definition frame_symbols (block : gdb.Block) : dict Symbol :=
  let symbols := collect_symbols block [] in
  OrderedDict (sorted_by_size symbols).

(** The loop of lines 76-85. *)
Fixpoint print_symbols (items : list (string * Symbol)) : Cmd unit :=
  match items with
  | [] => ret tt
  | (name, s) :: items' =>
      print (PrintSymbol (size s) name (typename s)) ;;
      print_symbols items'
  end.

Definition BLOCK_FAILURE : string := "Could not retrieve block information".

(** [frame.block()] *)
Definition frame_block (frame : gdb.Frame) : Cmd gdb.Block :=
  match gdb.block frame with
  | Some b => ret b
  | None => raise RuntimeError
  end.

(** [frame.function().name] (line 28): when [frame.function()] is [None]
    the attribute access raises. *)
Definition frame_function_name (frame : gdb.Frame) : Cmd string :=
  match gdb.function frame with
  | Some f => ret (gdb.name f)
  | None => raise AttributeError
  end.

(** [analyze_frame(frame_nr, frame)] (lines 17-87).  The arguments of the
    first [format] call are evaluated before anything is printed. *)
Definition analyze_frame (frame_nr : Z) (frame : gdb.Frame) : Cmd unit :=
  let info := gdb.find_sal frame in
  match gdb.symtab info with
  | Some st =>
      function <- frame_function_name frame ;;
      print (PrintHeader frame_nr function (gdb.filename st) (gdb.line info))
  | None => print (PrintFallbackHeader frame_nr)
  end ;;
  print (PrintRegisters (gdb.pc frame)
           (gdb.read_register frame "sp") (gdb.read_register frame "fp")) ;;
  match gdb.symtab info with
  | None => ret tt
  | Some _ =>
      b <- try_except (b <- frame_block frame ;; ret (Some b)) RuntimeError
             (print (PrintLine BLOCK_FAILURE) ;; ret None) ;;
      match b with
      | None => ret tt
      | Some block =>
          print_symbols (frame_symbols block) ;;
          print (PrintLine "")
      end
  end.

Definition NO_STACK : string :=
  "[stack-inspector] could not retrieve frame information (no stack).".

(** [int(gdb.parse_and_eval(a))] for a command-line word [a]: the word is
    given by the integer it evaluates to, [None] when gdb rejects it. *)
Definition int_parse_and_eval (a : option Z) : Cmd Z :=
  match a with
  | Some z => ret z
  | None => raise gdb_error
  end.

(** Lines 105-112: the range [(fstart, fend)] selected by the arguments. *)
Definition frame_range (argv : list (option Z)) : Cmd (Z * Z) :=
  let fstart := 0 in
  let fend := 999999 in
  match argv with
  | a0 :: a1 :: _ =>                      (* len(argv) > 1 *)
      fstart <- int_parse_and_eval a0 ;;
      count <- int_parse_and_eval a1 ;;
      ret (fstart, fstart + count - 1)
  | [a0] =>                               (* len(argv) > 0 *)
      n <- int_parse_and_eval a0 ;;
      ret (fstart, n - 1)
  | [] => ret (fstart, fend)
  end.

(** Lines 114-116: the frames from [frame] outward. *)
Fixpoint older_frames (frame : gdb.Frame) : list gdb.Frame :=
  frame :: match gdb.older frame with
           | Some f => older_frames f
           | None => []
           end.

(** [enumerate(l)], counting from [n]. *)
Fixpoint enumerate_from {A} (n : Z) (l : list A) : list (Z * A) :=
  match l with
  | [] => []
  | x :: l' => (n, x) :: enumerate_from (n + 1) l'
  end.

Definition enumerate {A} (l : list A) : list (Z * A) := enumerate_from 0 l.

(** The loop of lines 119-123, with its [break]. *)
Fixpoint analyze_frames (fstart fend : Z) (items : list (Z * gdb.Frame))
  : Cmd unit :=
  match items with
  | [] => ret tt
  | (frame_nr, frame) :: items' =>
      (if fstart <=? frame_nr then analyze_frame frame_nr frame else ret tt) ;;
      if fend <=? frame_nr then ret tt
      else analyze_frames fstart fend items'
  end.

(** [StackVisualizer.invoke] (lines 96-123).  [selected_frame] is what
    [gdb.selected_frame()] finds ([None]: it raises [gdb.error]); [argv] is
    the command line after [gdb.string_to_argv]. *)
Definition invoke (selected_frame : option gdb.Frame) (argv : list (option Z))
  : Cmd unit :=
  frame <- try_except
             (match selected_frame with
              | Some f => ret (Some f)
              | None => raise gdb_error
              end)
             gdb_error
             (print (PrintLine NO_STACK) ;; ret None) ;;
  match frame with
  | None => ret tt
  | Some frame =>
      range <- frame_range argv ;;
      let '(fstart, fend) := range in
      let backtrace := older_frames frame in
      print (PrintLine "") ;;
      analyze_frames fstart fend (enumerate backtrace)
  end.

(** ** Reading the console output *)

(** The frame number of a header line, if the output is one.  Each call of
    [analyze_frame] starts with exactly one header (lines 20-37). *)
Definition header_frame_nr (o : Output) : list Z :=
  match o with
  | PrintHeader frame_nr _ _ _ => [frame_nr]
  | PrintFallbackHeader frame_nr => [frame_nr]
  | _ => []
  end.

(** The frames that were analyzed, in the order of their reports. *)
Definition analyzed_frame_numbers (out : list Output) : list Z :=
  flat_map header_frame_nr out.

Definition symbol_line (o : Output) : list (string * Symbol) :=
  match o with
  | PrintSymbol size name typename => [(name, mkSymbol size typename)]
  | _ => []
  end.

(** The symbol list that was printed, top to bottom. *)
Definition printed_symbols (out : list Output) : list (string * Symbol) :=
  flat_map symbol_line out.

(** The integers [lo, lo+1, ..., hi-1]. *)
Definition zrange (lo hi : Z) : list Z :=
  map (fun i => lo + Z.of_nat i) (seq 0 (Z.to_nat (hi - lo))).

(** The length of the backtrace that starts at the selected frame. *)
Definition stack_depth (frame : gdb.Frame) : Z :=
  Z.of_nat (List.length (older_frames frame)).

(** The frames of a backtrace that the loop of lines 119-123 hands to
    [analyze_frame]: those numbered from [fstart] on, among the frames up to
    number [fend], and frame 0 in any case. *)
Definition selected_frames (fstart fend : Z) (backtrace : list gdb.Frame)
  : list (Z * gdb.Frame) :=
  filter (fun p => fstart <=? fst p)
         (firstn (S (Z.to_nat fend)) (enumerate backtrace)).

(** Line 28 can be evaluated for the frame: it has no symtab (the line is
    not reached), or it has a function symbol. *)
Definition reportable (frame : gdb.Frame) : bool :=
  match gdb.symtab (gdb.find_sal frame), gdb.function frame with
  | Some _, None => false
  | _, _ => true
  end.

Definition all_reportable (frames : list (Z * gdb.Frame)) : bool :=
  forallb (fun p => reportable (snd p)) frames.

(** The frames of a list up to the first one that is not reportable. *)
Fixpoint reported (frames : list (Z * gdb.Frame)) : list (Z * gdb.Frame) :=
  match frames with
  | [] => []
  | p :: frames' => if reportable (snd p) then p :: reported frames' else []
  end.

(** The calls [analyze_frame(frame_nr, frame)] for the frames of a list, one
    after the other. *)
Fixpoint report_all (frames : list (Z * gdb.Frame)) : Cmd unit :=
  match frames with
  | [] => ret tt
  | (frame_nr, frame) :: frames' =>
      analyze_frame frame_nr frame ;; report_all frames'
  end.

(** ** Vocabulary for the symbol walk *)

(** The lexical blocks from [block] outward. *)
Fixpoint scopes (block : gdb.Block) : list gdb.Block :=
  block :: match gdb.superblock block with
           | Some sb => scopes sb
           | None => []
           end.

Definition is_local_scope (block : gdb.Block) : bool :=
  negb (gdb.is_global block || gdb.is_static block).

(** Every declaration the walk looks at, innermost block first. *)
Definition declarations (block : gdb.Block) : list gdb.Symbol :=
  flat_map gdb.block_symbols (filter is_local_scope (scopes block)).

(** The dictionary entry recorded for a declaration (line 68). *)
Definition entry_of (symbol : gdb.Symbol) : Symbol :=
  mkSymbol (gdb.sizeof (gdb.type symbol)) (gdb.type symbol).

(** The first declaration of [name], walking outward, that is on the call
    stack. *)
Definition first_declaration (block : gdb.Block) (name : string)
  : option gdb.Symbol :=
  find (fun s => on_call_stack s && String.eqb (gdb.name s) name)
       (declarations block).

Definition has_size (s : Z) (item : string * Symbol) : bool :=
  size (snd item) =? s.

(** [a] may come before [b] in a list sorted by size, largest first. *)
Definition by_size_desc (a b : string * Symbol) : Prop :=
  size (snd b) <= size (snd a).

(** The dictionary item recorded for a declaration (line 68). *)
Definition item_of (symbol : gdb.Symbol) : string * Symbol :=
  (gdb.name symbol, entry_of symbol).

(** The items whose key is neither in [seen] nor carried by an earlier item,
    in their order. *)
Fixpoint first_by_name {V} (seen : list string) (items : list (string * V))
  : list (string * V) :=
  match items with
  | [] => []
  | (k, v) :: items' =>
      if existsb (String.eqb k) seen then first_by_name seen items'
      else (k, v) :: first_by_name (k :: seen) items'
  end.

(** ** The text of the output *)

(** Lines 7-11. *)
Definition ANSI_BOLD : string := String "027" "[1m".
Definition ANSI_GREEN : string := String "027" "[32m".
Definition ANSI_MAGENTA : string := String "027" "[35m".
Definition ANSI_CYAN : string := String "027" "[36m".
Definition ANSI_RESET : string := String "027" "[0m".

Definition newline : string := String "010" "".

Definition spaces (n : nat) : string :=
  string_of_list_ascii (repeat " "%char n).

(** [str(z)] for a Python [int]. *)
Definition str_int (z : Z) : string :=
  DecimalString.NilZero.string_of_int (Z.to_int z).

(** [format(s, "<w")]: left-aligned in at least [w] columns. *)
Definition ljust (w : nat) (s : string) : string :=
  String.append s (spaces (w - String.length s)).

(** [format(s, ">w")]: right-aligned in at least [w] columns. *)
Definition rjust (w : nat) (s : string) : string :=
  String.append (spaces (w - String.length s)) s.

(** [format(z, "x")]: lower-case hexadecimal, with a sign when negative. *)
Definition format_hex (z : Z) : string :=
  HexadecimalString.NilZero.string_of_int (Z.to_hex_int z).

(** A comma after every third character of [cs] that has a successor. *)
Fixpoint group3 (cs : list ascii) : list ascii :=
  match cs with
  | a :: b :: c :: (_ :: _) as rest => a :: b :: c :: ","%char :: group3 rest
  | _ => cs
  end.

(** [format(z, ",")]: decimal digits in groups of three, counted from the
    right, after the sign. *)
Definition format_thousands (z : Z) : string :=
  String.append (if z <? 0 then "-" else "")
    (string_of_list_ascii
       (rev (group3 (rev (list_ascii_of_string (str_int (Z.abs z))))))).

(** The text each [print] call writes, without its final line break: the
    format strings of lines 21-37, 42-47 and 77-85 with their arguments. *)
Definition render (o : Output) : string :=
  match o with
  | PrintLine text => text
  | PrintHeader frame_nr function filename line =>
      String.concat ""
        ["  "; ANSI_BOLD; "#"; ljust 3 (str_int frame_nr); ANSI_RESET; " ";
         ANSI_GREEN; function; ANSI_RESET; " @ "; filename; ":";
         str_int line]
  | PrintFallbackHeader frame_nr =>
      String.concat ""
        ["  "; ANSI_BOLD; "#"; ljust 3 (str_int frame_nr); ANSI_RESET;
         " Could not retrieve frame information"]
  | PrintRegisters pc sp fp =>
      String.concat ""
        [spaces 11; "pc: 0x"; format_hex pc; newline;
         spaces 11; "sp: "; sp; newline;
         spaces 11; "fp: "; fp]
  | PrintSymbol size name typename =>
      String.concat ""
        ["    "; ANSI_BOLD; rjust 14 (format_thousands size); ANSI_RESET;
         "   "; name; " ("; ANSI_CYAN; gdb.type_str typename; ANSI_RESET;
         ")"]
  end.

(** What the console shows: every [print] ends its text with a line
    break. *)
Definition console (out : list Output) : string :=
  String.concat "" (map (fun o => String.append (render o) newline) out).

(** The characters of a field that belong to its number: neither padding
    nor separator. *)
Definition is_number_char (c : ascii) : bool :=
  negb (Ascii.eqb c " " || Ascii.eqb c ",").

(** The integer written in a field, ignoring padding and separators. *)
Definition read_number (field : string) : option Z :=
  option_map Z.of_int
    (DecimalString.NilZero.int_of_string
       (string_of_list_ascii
          (filter is_number_char (list_ascii_of_string field)))).

(** ** A sample debugging session *)

Module Sample.

Definition int_t := gdb.mkType 4 "int".
Definition double_t := gdb.mkType 8 "double".
Definition buffer_t := gdb.mkType 4096 "char [4096]".
Definition small_t := gdb.mkType 16 "char [16]".

Definition arg_n :=
  gdb.mkSymbol "n" int_t true false gdb.SYMBOL_LOC_COMPUTED.
Definition local_total :=
  gdb.mkSymbol "total" double_t false true gdb.SYMBOL_LOC_COMPUTED.
Definition local_buf_outer :=
  gdb.mkSymbol "buf" small_t false true gdb.SYMBOL_LOC_COMPUTED.
Definition local_buf_inner :=
  gdb.mkSymbol "buf" buffer_t false true gdb.SYMBOL_LOC_COMPUTED.
Definition local_i :=
  gdb.mkSymbol "i" int_t false true gdb.SYMBOL_LOC_COMPUTED.
Definition local_j :=
  gdb.mkSymbol "j" int_t false true gdb.SYMBOL_LOC_REGISTER.
Definition static_calls :=
  gdb.mkSymbol "calls" int_t false true gdb.SYMBOL_LOC_STATIC.
Definition file_counter :=
  gdb.mkSymbol "counter" double_t false true gdb.SYMBOL_LOC_STATIC.
Definition global_limit :=
  gdb.mkSymbol "limit" buffer_t false true gdb.SYMBOL_LOC_COMPUTED.

Definition global_block :=
  gdb.mkBlock true false [global_limit] None.
Definition static_block :=
  gdb.mkBlock false true [file_counter] (Some global_block).
Definition function_block :=
  gdb.mkBlock false false
    [arg_n; local_total; local_buf_outer; static_calls] (Some static_block).
Definition inner_block :=
  gdb.mkBlock false false [local_i; local_buf_inner; local_j]
    (Some function_block).

Definition registers (r : string) : string :=
  if String.eqb r "sp" then "0x7ffe0010" else "0x7ffe0040".

Definition sal := gdb.mkSal (Some (gdb.mkSymtab "work.c")) 42.
Definition no_sal := gdb.mkSal None 0.

Definition function_t := gdb.mkType 1 "int (int)".
Definition work_symbol :=
  gdb.mkSymbol "work" function_t false false gdb.SYMBOL_LOC_BLOCK.
Definition main_symbol :=
  gdb.mkSymbol "main" function_t false false gdb.SYMBOL_LOC_BLOCK.
Definition local_status :=
  gdb.mkSymbol "status" int_t false true gdb.SYMBOL_LOC_COMPUTED.
Definition main_block :=
  gdb.mkBlock false false [local_status] (Some static_block).

(** The outermost frame: no source information. *)
Definition frame_start :=
  gdb.mkFrame no_sal gdb.NoFunction 4198400 registers None.
(** The caller of [work]. *)
Definition frame_main :=
  gdb.mkFrame sal (gdb.InFunction main_symbol (Some main_block)) 4198500
    registers (Some frame_start).
(** The selected frame, stopped inside the inner block of [work]. *)
Definition frame_work :=
  gdb.mkFrame sal (gdb.InFunction work_symbol (Some inner_block)) 4198600
    registers (Some frame_main).

(** A second session: [work] was called from an assembly routine that has
    line information but no function symbol. *)
Definition sal_asm := gdb.mkSal (Some (gdb.mkSymtab "entry.S")) 7.
Definition frame_asm :=
  gdb.mkFrame sal_asm gdb.NoFunction 4198450 registers (Some frame_start).
Definition frame_callback :=
  gdb.mkFrame sal (gdb.InFunction work_symbol (Some inner_block)) 4198600
    registers (Some frame_asm).

(** A stack of [n + 1] frames without source information. *)
Fixpoint deep_stack (n : nat) : gdb.Frame :=
  match n with
  | O => frame_start
  | S n' =>
      gdb.mkFrame no_sal gdb.NoFunction 4198400 registers
        (Some (deep_stack n'))
  end.

End Sample.

(** * Properties *)

(** ** The sample sessions, run *)

Example sample_session :
  invoke (Some Sample.frame_work) []
  = ([PrintLine "";
      PrintHeader 0 "work" "work.c" 42;
      PrintRegisters 4198600 "0x7ffe0010" "0x7ffe0040";
      PrintSymbol 4096 "buf" Sample.buffer_t;
      PrintSymbol 8 "total" Sample.double_t;
      PrintSymbol 4 "i" Sample.int_t;
      PrintSymbol 4 "j" Sample.int_t;
      PrintSymbol 4 "n" Sample.int_t;
      PrintLine "";
      PrintHeader 1 "main" "work.c" 42;
      PrintRegisters 4198500 "0x7ffe0010" "0x7ffe0040";
      PrintSymbol 4 "status" Sample.int_t;
      PrintLine "";
      PrintFallbackHeader 2;
      PrintRegisters 4198400 "0x7ffe0010" "0x7ffe0040"], inr tt).
Proof. reflexivity. Qed.

Example sample_session_range :
  analyzed_frame_numbers
    (output (invoke (Some Sample.frame_work) [Some 1; Some 5])) = [1; 2].
Proof. reflexivity. Qed.

(** A word that gdb cannot evaluate makes the command raise before it
    prints anything. *)
Example sample_session_bad_argument :
  invoke (Some Sample.frame_work) [Some 1; None] = ([], inl gdb_error).
Proof. reflexivity. Qed.

(** In the second session the command stops at the assembly frame: line 28
    raises before the frame's header is printed. *)
Example sample_session_assembly :
  invoke (Some Sample.frame_callback) []
  = ([PrintLine "";
      PrintHeader 0 "work" "work.c" 42;
      PrintRegisters 4198600 "0x7ffe0010" "0x7ffe0040";
      PrintSymbol 4096 "buf" Sample.buffer_t;
      PrintSymbol 8 "total" Sample.double_t;
      PrintSymbol 4 "i" Sample.int_t;
      PrintSymbol 4 "j" Sample.int_t;
      PrintSymbol 4 "n" Sample.int_t;
      PrintLine ""], inl AttributeError).
Proof. reflexivity. Qed.

(** ** Integer ranges *)

Lemma zrange_nil lo hi : hi <= lo -> zrange lo hi = [].
Proof.
  intros H. unfold zrange.
  replace (Z.to_nat (hi - lo)) with O by lia. reflexivity.
Qed.

Lemma zrange_cons lo hi : lo < hi -> zrange lo hi = lo :: zrange (lo + 1) hi.
Proof.
  intros H. unfold zrange.
  replace (Z.to_nat (hi - lo)) with (S (Z.to_nat (hi - (lo + 1)))) by lia.
  cbn [seq map]. f_equal; [lia |].
  rewrite <- seq_shift, map_map.
  apply map_ext. intros i. lia.
Qed.

Lemma zrange_length lo hi : List.length (zrange lo hi) = Z.to_nat (hi - lo).
Proof. unfold zrange. now rewrite length_map, length_seq. Qed.

Lemma in_zrange lo hi i : In i (zrange lo hi) <-> lo <= i < hi.
Proof.
  unfold zrange. rewrite in_map_iff. split.
  - intros (k & <- & Hk). apply in_seq in Hk. lia.
  - intros H. exists (Z.to_nat (i - lo)). split; [lia |].
    apply in_seq. lia.
Qed.

Lemma zrange_NoDup lo hi : NoDup (zrange lo hi).
Proof.
  unfold zrange. apply Finite.Injective_map_NoDup.
  - intros a b H. lia.
  - apply seq_NoDup.
Qed.

(** ** The command monad *)

Lemma output_bind {A B} (m : Cmd A) (k : A -> Cmd B) a :
  result m = inr a -> output (bind m k) = output m ++ output (k a).
Proof.
  destruct m as [out [e | a']]; cbn; intros H; [discriminate |].
  injection H as ->. now destruct (k a).
Qed.

Lemma result_bind {A B} (m : Cmd A) (k : A -> Cmd B) a :
  result m = inr a -> result (bind m k) = result (k a).
Proof.
  destruct m as [out [e | a']]; cbn; intros H; [discriminate |].
  injection H as ->. now destruct (k a).
Qed.

Lemma analyzed_frame_numbers_app o1 o2 :
  analyzed_frame_numbers (o1 ++ o2)
  = analyzed_frame_numbers o1 ++ analyzed_frame_numbers o2.
Proof. apply flat_map_app. Qed.

Lemma printed_symbols_app o1 o2 :
  printed_symbols (o1 ++ o2) = printed_symbols o1 ++ printed_symbols o2.
Proof. apply flat_map_app. Qed.

Lemma firstn_zrange k : forall lo hi,
  firstn k (zrange lo hi) = zrange lo (Z.min hi (lo + Z.of_nat k)).
Proof.
  induction k as [| k IH]; intros lo hi.
  - cbn [firstn]. symmetry. apply zrange_nil. lia.
  - destruct (Z.le_gt_cases hi lo) as [Hle | Hlt].
    + rewrite (zrange_nil lo hi) by exact Hle.
      cbn [firstn]. symmetry. apply zrange_nil. lia.
    + rewrite (zrange_cons lo hi) by lia. cbn [firstn]. rewrite IH.
      rewrite (zrange_cons lo (Z.min hi (lo + Z.of_nat (S k)))) by lia.
      do 2 f_equal. lia.
Qed.

Lemma bind_ret_l {A B} (a : A) (k : A -> Cmd B) : bind (ret a) k = k a.
Proof. cbn. now destruct (k a). Qed.

Lemma bind_ret_tt_r (m : Cmd unit) : bind m (fun _ => ret tt) = m.
Proof.
  destruct m as [out [e | []]]; cbn; [reflexivity |].
  now rewrite app_nil_r.
Qed.

(** ** What [analyze_frame] does, case by case *)

Lemma print_symbols_spec items :
  print_symbols items
  = (map (fun it => PrintSymbol (size (snd it)) (fst it) (typename (snd it)))
         items, inr tt).
Proof.
  induction items as [| [n s] items IH]; [reflexivity |].
  cbn [print_symbols]. rewrite IH. reflexivity.
Qed.

Lemma printed_symbols_print_symbols items :
  printed_symbols
    (map (fun it => PrintSymbol (size (snd it)) (fst it) (typename (snd it)))
         items) = items.
Proof.
  induction items as [| [n [s t]] items IH]; [reflexivity |].
  cbn. f_equal. exact IH.
Qed.

Lemma analyze_frame_no_symtab frame_nr frame :
  gdb.symtab (gdb.find_sal frame) = None ->
  analyze_frame frame_nr frame
  = ([PrintFallbackHeader frame_nr;
      PrintRegisters (gdb.pc frame) (gdb.read_register frame "sp")
        (gdb.read_register frame "fp")], inr tt).
Proof. intros H. unfold analyze_frame. rewrite H. reflexivity. Qed.

(** Line 28 on a frame without function symbol: the call raises before it
    prints. *)
Lemma analyze_frame_no_function frame_nr frame st :
  gdb.symtab (gdb.find_sal frame) = Some st ->
  gdb.function frame = None ->
  analyze_frame frame_nr frame = ([], inl AttributeError).
Proof.
  intros H Hf. unfold analyze_frame, frame_function_name.
  rewrite H, Hf. reflexivity.
Qed.

Lemma analyze_frame_no_block frame_nr frame st f :
  gdb.symtab (gdb.find_sal frame) = Some st ->
  gdb.function frame = Some f ->
  gdb.block frame = None ->
  analyze_frame frame_nr frame
  = ([PrintHeader frame_nr (gdb.name f) (gdb.filename st)
        (gdb.line (gdb.find_sal frame));
      PrintRegisters (gdb.pc frame) (gdb.read_register frame "sp")
        (gdb.read_register frame "fp");
      PrintLine BLOCK_FAILURE], inr tt).
Proof.
  intros H Hf Hb. unfold analyze_frame, frame_function_name, frame_block.
  rewrite H, Hf, Hb. reflexivity.
Qed.

(** A frame whose block gdb retrieves has a function symbol. *)
Lemma block_has_function frame b :
  gdb.block frame = Some b ->
  exists f, gdb.function frame = Some f /\ gdb.function_name frame = gdb.name f.
Proof.
  unfold gdb.function_name, gdb.function, gdb.block.
  destruct (gdb.code frame) as [| f ob]; [discriminate |].
  intros _. now exists f.
Qed.

Lemma analyze_frame_block frame_nr frame st b :
  gdb.symtab (gdb.find_sal frame) = Some st ->
  gdb.block frame = Some b ->
  analyze_frame frame_nr frame
  = ([PrintHeader frame_nr (gdb.function_name frame) (gdb.filename st)
        (gdb.line (gdb.find_sal frame));
      PrintRegisters (gdb.pc frame) (gdb.read_register frame "sp")
        (gdb.read_register frame "fp")]
     ++ map (fun it => PrintSymbol (size (snd it)) (fst it) (typename (snd it)))
            (frame_symbols b)
     ++ [PrintLine ""], inr tt).
Proof.
  intros H Hb. destruct (block_has_function _ _ Hb) as (f & Hf & ->).
  unfold analyze_frame, frame_function_name, frame_block.
  rewrite H, Hf, Hb. cbn. rewrite print_symbols_spec. reflexivity.
Qed.

Lemma reportable_false frame :
  reportable frame = false
  <-> (exists st, gdb.symtab (gdb.find_sal frame) = Some st)
      /\ gdb.function frame = None.
Proof.
  unfold reportable.
  destruct (gdb.symtab (gdb.find_sal frame)) as [st |];
    destruct (gdb.function frame) as [f |]; split;
    try discriminate; try reflexivity;
    try (intros [[st' Hst] Hf]; discriminate).
  intros _. split; [now exists st | reflexivity].
Qed.

Lemma analyze_frame_not_reportable frame_nr frame :
  reportable frame = false ->
  analyze_frame frame_nr frame = ([], inl AttributeError).
Proof.
  intros H. apply reportable_false in H. destruct H as [[st Hst] Hf].
  now apply (analyze_frame_no_function _ _ st).
Qed.

(** [analyze_frame] raises only at line 28: the [RuntimeError] of
    [frame.block()] is caught. *)
Lemma analyze_frame_returns frame_nr frame :
  reportable frame = true -> result (analyze_frame frame_nr frame) = inr tt.
Proof.
  unfold reportable. intros Hr.
  destruct (gdb.symtab (gdb.find_sal frame)) as [st |] eqn:H.
  - destruct (gdb.function frame) as [f |] eqn:Hf; [| discriminate].
    destruct (gdb.block frame) as [b |] eqn:Hb.
    + now rewrite (analyze_frame_block _ _ _ _ H Hb).
    + now rewrite (analyze_frame_no_block _ _ _ _ H Hf Hb).
  - now rewrite (analyze_frame_no_symtab _ _ H).
Qed.

Lemma analyzed_frame_numbers_symbols items :
  analyzed_frame_numbers
    (map (fun it => PrintSymbol (size (snd it)) (fst it) (typename (snd it)))
         items) = [].
Proof. induction items as [| it items IH]; [reflexivity | exact IH]. Qed.

(** A call that returns reports exactly one frame number: its own. *)
Lemma analyze_frame_number frame_nr frame :
  reportable frame = true ->
  analyzed_frame_numbers (output (analyze_frame frame_nr frame)) = [frame_nr].
Proof.
  unfold reportable. intros Hr.
  destruct (gdb.symtab (gdb.find_sal frame)) as [st |] eqn:H.
  - destruct (gdb.function frame) as [f |] eqn:Hf; [| discriminate].
    destruct (gdb.block frame) as [b |] eqn:Hb.
    + rewrite (analyze_frame_block _ _ _ _ H Hb). unfold output. cbn [fst].
      rewrite !analyzed_frame_numbers_app, analyzed_frame_numbers_symbols.
      reflexivity.
    + now rewrite (analyze_frame_no_block _ _ _ _ H Hf Hb).
  - now rewrite (analyze_frame_no_symtab _ _ H).
Qed.

Lemma printed_symbols_analyze_frame frame_nr frame :
  printed_symbols (output (analyze_frame frame_nr frame))
  = match gdb.symtab (gdb.find_sal frame), gdb.block frame with
    | Some _, Some b => frame_symbols b
    | _, _ => []
    end.
Proof.
  destruct (gdb.symtab (gdb.find_sal frame)) as [st |] eqn:H.
  - destruct (gdb.block frame) as [b |] eqn:Hb.
    + rewrite (analyze_frame_block _ _ _ _ H Hb). unfold output. cbn [fst].
      rewrite !printed_symbols_app, printed_symbols_print_symbols.
      cbn. now rewrite app_nil_r.
    + destruct (gdb.function frame) as [f |] eqn:Hf.
      * now rewrite (analyze_frame_no_block _ _ _ _ H Hf Hb).
      * now rewrite (analyze_frame_no_function _ _ _ H Hf).
  - now rewrite (analyze_frame_no_symtab _ _ H).
Qed.

(** ** The frame loop of [invoke] *)

(** The loop calls [analyze_frame] for the selected frames, one after the
    other; a call that raises ends it. *)
Lemma analyze_frames_reports fstart fend frames : forall n,
  analyze_frames fstart fend (enumerate_from n frames)
  = report_all
      (filter (fun p => fstart <=? fst p)
         (firstn (S (Z.to_nat (fend - n))) (enumerate_from n frames))).
Proof.
  induction frames as [| frame frames IH]; intros n; [reflexivity |].
  cbn [enumerate_from analyze_frames firstn filter fst].
  destruct (Z.leb_spec fend n) as [He | He].
  - replace (Z.to_nat (fend - n)) with O by lia. cbn [firstn filter].
    destruct (fstart <=? n); reflexivity.
  - rewrite IH.
    replace (S (Z.to_nat (fend - (n + 1)))) with (Z.to_nat (fend - n)) by lia.
    destruct (fstart <=? n); [reflexivity | now rewrite bind_ret_l].
Qed.

Lemma report_all_reportable frames :
  all_reportable frames = true ->
  report_all frames
  = (flat_map (fun p => output (analyze_frame (fst p) (snd p))) frames,
     inr tt).
Proof.
  induction frames as [| [i f] frames IH]; [reflexivity |].
  cbn [all_reportable forallb snd]. intros H.
  apply andb_true_iff in H. destruct H as [Hf Hrest].
  cbn [report_all flat_map fst snd]. rewrite (IH Hrest).
  pose proof (analyze_frame_returns i f Hf) as Hr.
  destruct (analyze_frame i f) as [out r]. cbn in Hr. subst r. reflexivity.
Qed.

Lemma report_all_result frames :
  result (report_all frames)
  = if all_reportable frames then inr tt else inl AttributeError.
Proof.
  induction frames as [| [i f] frames IH]; [reflexivity |].
  cbn [report_all all_reportable forallb snd].
  destruct (reportable f) eqn:Hf.
  - rewrite (result_bind _ _ tt) by now apply analyze_frame_returns.
    exact IH.
  - now rewrite (analyze_frame_not_reportable i f Hf).
Qed.

(** What the calls print: the reports of the frames up to the first one
    for which line 28 raises. *)
Lemma report_all_output frames :
  output (report_all frames)
  = flat_map (fun p => output (analyze_frame (fst p) (snd p)))
      (reported frames).
Proof.
  induction frames as [| [i f] frames IH]; [reflexivity |].
  cbn [report_all reported snd].
  destruct (reportable f) eqn:Hf.
  - rewrite (output_bind _ _ tt) by now apply analyze_frame_returns.
    cbn [flat_map fst snd]. now rewrite IH.
  - now rewrite (analyze_frame_not_reportable i f Hf).
Qed.

Lemma reported_numbers frames :
  analyzed_frame_numbers
    (flat_map (fun p => output (analyze_frame (fst p) (snd p)))
       (reported frames))
  = map fst (reported frames).
Proof.
  induction frames as [| [i f] frames IH]; [reflexivity |].
  cbn [reported snd]. destruct (reportable f) eqn:Hf; [| reflexivity].
  cbn [flat_map map fst snd].
  fold (analyzed_frame_numbers
          (output (analyze_frame i f)
           ++ flat_map (fun p => output (analyze_frame (fst p) (snd p)))
                (reported frames))).
  rewrite analyzed_frame_numbers_app, (analyze_frame_number i f Hf), IH.
  reflexivity.
Qed.

Lemma reported_all frames :
  all_reportable frames = true -> reported frames = frames.
Proof.
  induction frames as [| [i f] frames IH]; [reflexivity |].
  cbn [all_reportable forallb reported snd]. intros H.
  apply andb_true_iff in H. destruct H as [-> Hrest].
  f_equal. now apply IH.
Qed.

Lemma reported_firstn frames : exists k, reported frames = firstn k frames.
Proof.
  induction frames as [| [i f] frames [k IH]]; [now exists O |].
  cbn [reported snd]. destruct (reportable f).
  - exists (S k). cbn [firstn]. now rewrite IH.
  - now exists O.
Qed.

Lemma frame_range_silent argv : output (frame_range argv) = [].
Proof.
  destruct argv as [| [a0 |] [| [a1 |] argv]]; reflexivity.
Qed.

Lemma invoke_selected frame argv fstart fend :
  result (frame_range argv) = inr (fstart, fend) ->
  invoke (Some frame) argv
  = (PrintLine ""
       :: output (report_all
                    (selected_frames fstart fend (older_frames frame))),
     result (report_all (selected_frames fstart fend (older_frames frame)))).
Proof.
  intros H. unfold invoke. cbn [try_except ret bind app].
  pose proof (frame_range_silent argv) as Ho.
  destruct (frame_range argv) as [out r]. cbn in H, Ho. subst out r.
  cbn [bind print app]. unfold enumerate at 1.
  rewrite analyze_frames_reports, Z.sub_0_r.
  fold (enumerate (older_frames frame)).
  fold (selected_frames fstart fend (older_frames frame)).
  now destruct (report_all _).
Qed.

Lemma invoke_bad_argument frame argv e :
  result (frame_range argv) = inl e -> invoke (Some frame) argv = ([], inl e).
Proof.
  intros H. unfold invoke. cbn [try_except ret bind app].
  pose proof (frame_range_silent argv) as Ho.
  destruct (frame_range argv) as [out r]. cbn in H, Ho. subst out r.
  reflexivity.
Qed.

(** The numbers of the selected frames. *)
Lemma selected_from_numbers fstart fend frames : forall n,
  map fst
    (filter (fun p : Z * gdb.Frame => fstart <=? fst p)
       (firstn (S (Z.to_nat (fend - n))) (enumerate_from n frames)))
  = zrange (Z.max fstart n)
           (Z.min (n + Z.of_nat (List.length frames)) (Z.max fend n + 1)).
Proof.
  induction frames as [| frame frames IH]; intros n.
  - cbn. symmetry. apply zrange_nil. lia.
  - cbn [enumerate_from firstn filter fst List.length].
    assert (Hrest :
      map fst
        (filter (fun p : Z * gdb.Frame => fstart <=? fst p)
           (firstn (Z.to_nat (fend - n)) (enumerate_from (n + 1) frames)))
      = zrange (Z.max fstart (n + 1))
          (Z.min (n + Z.of_nat (S (List.length frames))) (Z.max fend n + 1))).
    { destruct (Z.le_gt_cases fend n) as [He | He].
      - replace (Z.to_nat (fend - n)) with O by lia. cbn.
        symmetry. apply zrange_nil. lia.
      - replace (Z.to_nat (fend - n))
          with (S (Z.to_nat (fend - (n + 1)))) by lia.
        rewrite IH. f_equal; lia. }
    destruct (Z.leb_spec fstart n) as [Hs | Hs]; cbn [map fst].
    + rewrite Hrest.
      destruct (Z.le_gt_cases (Z.max fend n + 1) n); [lia |].
      rewrite (zrange_cons (Z.max fstart n)) by lia.
      f_equal; [lia | f_equal; lia].
    + rewrite Hrest. f_equal. lia.
Qed.

Lemma selected_frame_numbers fstart fend frame :
  map fst (selected_frames fstart fend (older_frames frame))
  = zrange (Z.max fstart 0) (Z.min (stack_depth frame) (Z.max fend 0 + 1)).
Proof.
  unfold selected_frames, enumerate.
  rewrite <- (Z.sub_0_r fend) at 1. rewrite selected_from_numbers.
  reflexivity.
Qed.

(** The frames the command reports, as long as line 28 raises for none of
    the selected frames. *)
Lemma invoke_analyzed frame argv fstart fend :
  result (frame_range argv) = inr (fstart, fend) ->
  all_reportable (selected_frames fstart fend (older_frames frame)) = true ->
  analyzed_frame_numbers (output (invoke (Some frame) argv))
  = zrange (Z.max fstart 0) (Z.min (stack_depth frame) (Z.max fend 0 + 1)).
Proof.
  intros H Hall. rewrite (invoke_selected _ _ _ _ H).
  unfold output at 1. cbn [fst].
  change (PrintLine "" :: ?l) with ([PrintLine ""] ++ l).
  rewrite analyzed_frame_numbers_app, report_all_output, reported_numbers.
  rewrite (reported_all _ Hall), selected_frame_numbers. reflexivity.
Qed.

Lemma nth_error_enumerate_from_eq {A} (l : list A) : forall n k,
  nth_error (enumerate_from n l) k
  = option_map (fun x => (n + Z.of_nat k, x)) (nth_error l k).
Proof.
  induction l as [| y l IH]; intros n k; destruct k as [| k]; cbn;
    try reflexivity.
  - do 2 f_equal. lia.
  - rewrite IH. destruct (nth_error l k); cbn; [| reflexivity].
    do 2 f_equal. lia.
Qed.

(** The selected frames are the frames of the backtrace paired with their
    position, for the positions from [fstart] to [fend], and position 0
    whenever [fstart <= 0]. *)
Lemma in_selected_frames_iff fstart fend backtrace i f :
  In (i, f) (selected_frames fstart fend backtrace)
  <-> 0 <= i /\ nth_error backtrace (Z.to_nat i) = Some f
      /\ fstart <= i /\ (i <= fend \/ i = 0).
Proof.
  unfold selected_frames. rewrite filter_In. cbn [fst]. rewrite Z.leb_le.
  split.
  - intros [Hin Hs]. apply In_nth_error in Hin. destruct Hin as [k Hk].
    rewrite nth_error_firstn in Hk.
    destruct (Nat.ltb_spec k (S (Z.to_nat fend))) as [Hlt | Hge];
      [| discriminate].
    unfold enumerate in Hk. rewrite nth_error_enumerate_from_eq in Hk.
    destruct (nth_error backtrace k) as [x |] eqn:Hx; [| discriminate].
    cbn [option_map] in Hk. injection Hk as Hi Hf. subst i f.
    rewrite ?Z.add_0_l, ?Nat2Z.id in *.
    repeat split; try assumption; lia.
  - intros (Hi & Hnth & Hs & He). split; [| exact Hs].
    apply (nth_error_In _ (Z.to_nat i)). rewrite nth_error_firstn.
    destruct (Nat.ltb_spec (Z.to_nat i) (S (Z.to_nat fend))) as [_ | Hge];
      [| lia].
    unfold enumerate. rewrite nth_error_enumerate_from_eq, Hnth. cbn.
    do 2 f_equal. lia.
Qed.

(** On a backtrace whose frames are all reportable, so are the selected
    ones. *)
Lemma selected_frames_reportable fstart fend backtrace :
  forallb reportable backtrace = true ->
  all_reportable (selected_frames fstart fend backtrace) = true.
Proof.
  intros Hall. apply forallb_forall. intros [i f] Hin.
  apply in_selected_frames_iff in Hin. destruct Hin as (_ & Hnth & _).
  apply nth_error_In in Hnth. cbn [snd].
  now apply (proj1 (forallb_forall _ _) Hall).
Qed.

(** A range that ends at or below frame 0 and does not start above it
    selects frame 0. *)
Lemma selected_frames_first fstart fend frame :
  fstart <= 0 -> fend <= 0 ->
  selected_frames fstart fend (older_frames frame) = [(0, frame)].
Proof.
  intros Hs He. unfold selected_frames, enumerate.
  replace (Z.to_nat fend) with O by lia.
  destruct frame as [sal code pc regs old].
  cbn [older_frames enumerate_from firstn filter fst].
  destruct (Z.leb_spec fstart 0); [reflexivity | lia].
Qed.

(** A range that starts above frame 0 and ends below its start, or starts
    beyond the backtrace, selects nothing. *)
Lemma selected_frames_none fstart fend frame :
  stack_depth frame <= fstart \/ (1 <= fstart /\ fend < fstart) ->
  selected_frames fstart fend (older_frames frame) = [].
Proof.
  intros Hempty.
  destruct (selected_frames fstart fend (older_frames frame))
    as [| [i f] l] eqn:Hl; [reflexivity | exfalso].
  assert (Hin : In (i, f)
                  (selected_frames fstart fend (older_frames frame)))
    by (rewrite Hl; now left).
  apply in_selected_frames_iff in Hin.
  destruct Hin as (Hi & Hnth & Hs & He).
  assert (Hlt : (Z.to_nat i < List.length (older_frames frame))%nat)
    by (apply nth_error_Some; congruence).
  unfold stack_depth in Hempty. lia.
Qed.

Lemma stack_depth_pos frame : 1 <= stack_depth frame.
Proof.
  unfold stack_depth. destruct frame; cbn [older_frames List.length]. lia.
Qed.

Lemma deep_stack_depth n : stack_depth (Sample.deep_stack n) = Z.of_nat n + 1.
Proof.
  unfold stack_depth. induction n as [| n IH].
  - reflexivity.
  - cbn [Sample.deep_stack older_frames gdb.older List.length].
    cbn [Sample.deep_stack older_frames gdb.older List.length] in IH. lia.
Qed.

Lemma deep_stack_reportable n :
  forallb reportable (older_frames (Sample.deep_stack n)) = true.
Proof.
  induction n as [| n IH]; [reflexivity |].
  cbn [Sample.deep_stack older_frames gdb.older forallb].
  now rewrite IH.
Qed.

(** ** The frame range selected by the arguments *)

(** C1, at the input where the code departs from it: with the single
    argument 0 the claim asks for [min(0, L) = 0] analyzed frames, and the
    command analyzes frame 0 of the backtrace (shown here for a frame 0
    whose header can be printed). *)
Theorem one_argument_zero_analyzes_frame_0 frame :
  reportable frame = true ->
  analyzed_frame_numbers (output (invoke (Some frame) [Some 0])) = [0]
  /\ zrange 0 (Z.min 0 (stack_depth frame)) = [].
Proof.
  intros Hf. split.
  - rewrite (invoke_selected _ _ 0 (-1)) by reflexivity.
    rewrite selected_frames_first by lia.
    cbn [report_all output fst].
    rewrite bind_ret_tt_r.
    change (PrintLine "" :: ?l) with ([PrintLine ""] ++ l).
    rewrite analyzed_frame_numbers_app.
    now rewrite (analyze_frame_number 0 frame Hf).
  - apply zrange_nil. lia.
Qed.

Lemma one_argument_zero_analyzes_frame_0_witness :
  analyzed_frame_numbers
    (output (invoke (Some Sample.frame_work) [Some 0])) = [0]
  /\ zrange 0 (Z.min 0 (stack_depth Sample.frame_work)) = [].
Proof.
  apply (one_argument_zero_analyzes_frame_0 Sample.frame_work). reflexivity.
Defined.

(** C2, at the input where the code departs from it: for [start = 0] and
    [count = 0] the interval [start, start+count-1] is empty, yet frame 0 is
    analyzed (shown here for a frame 0 whose header can be printed); for
    [start = 1] and the same count no frame is. *)
Theorem zero_count_at_start_0_analyzes_frame_0 frame :
  reportable frame = true ->
  analyzed_frame_numbers (output (invoke (Some frame) [Some 0; Some 0])) = [0]
  /\ (forall i, ~ (0 <= i <= 0 + 0 - 1 /\ 0 <= i <= stack_depth frame - 1))
  /\ analyzed_frame_numbers (output (invoke (Some frame) [Some 1; Some 0]))
     = [].
Proof.
  intros Hf. split; [| split].
  - rewrite (invoke_selected _ _ 0 (-1)) by reflexivity.
    rewrite selected_frames_first by lia.
    cbn [report_all output fst].
    rewrite bind_ret_tt_r.
    change (PrintLine "" :: ?l) with ([PrintLine ""] ++ l).
    rewrite analyzed_frame_numbers_app.
    now rewrite (analyze_frame_number 0 frame Hf).
  - intros i H. lia.
  - rewrite (invoke_selected _ _ 1 0) by reflexivity.
    rewrite selected_frames_none by lia. reflexivity.
Qed.

Lemma zero_count_at_start_0_analyzes_frame_0_witness :
  analyzed_frame_numbers
    (output (invoke (Some Sample.frame_work) [Some 0; Some 0])) = [0]
  /\ (forall i, ~ (0 <= i <= 0 + 0 - 1
                   /\ 0 <= i <= stack_depth Sample.frame_work - 1))
  /\ analyzed_frame_numbers
       (output (invoke (Some Sample.frame_work) [Some 1; Some 0])) = [].
Proof.
  apply (zero_count_at_start_0_analyzes_frame_0 Sample.frame_work).
  reflexivity.
Defined.

(** C3 as amended: without arguments, and as long as every frame below
    number 1000000 that has a symtab also has a function symbol, the command
    analyzes the frames [0 .. min(L, 1000000) - 1], each once and in
    increasing order; the default upper bound [fend = 999999] stops the loop
    after frame 999999. *)
Theorem no_argument_analyzes_first_million frame :
  all_reportable (selected_frames 0 999999 (older_frames frame)) = true ->
  analyzed_frame_numbers (output (invoke (Some frame) []))
  = zrange 0 (Z.min (stack_depth frame) 1000000).
Proof.
  intros Hall. now rewrite (invoke_analyzed _ _ 0 999999) by easy.
Qed.

Lemma no_argument_analyzes_first_million_witness :
  analyzed_frame_numbers (output (invoke (Some Sample.frame_work) []))
  = zrange 0 (Z.min (stack_depth Sample.frame_work) 1000000).
Proof.
  apply (no_argument_analyzes_first_million Sample.frame_work).
  apply selected_frames_reportable. reflexivity.
Defined.

Lemma no_argument_misses_deep_frames n :
  1000000 <= Z.of_nat n ->
  analyzed_frame_numbers (output (invoke (Some (Sample.deep_stack n)) []))
  <> zrange 0 (stack_depth (Sample.deep_stack n)).
Proof.
  intros Hn Heq.
  rewrite (invoke_analyzed _ _ 0 999999) in Heq;
    [| reflexivity
     | apply selected_frames_reportable, deep_stack_reportable].
  apply (f_equal (@List.length Z)) in Heq.
  rewrite !zrange_length, deep_stack_depth in Heq. lia.
Qed.

(** C3 fails as stated: on a stack of 1000001 frames the command does not
    analyze every frame. *)
Lemma no_argument_not_whole_backtrace :
  analyzed_frame_numbers
    (output (invoke (Some (Sample.deep_stack (N.to_nat 1000000))) []))
  <> zrange 0 (stack_depth (Sample.deep_stack (N.to_nat 1000000))).
Proof.
  apply no_argument_misses_deep_frames.
  rewrite N_nat_Z. discriminate.
Qed.

(** C10: when the computed start index is 0, [analyze_frame] is called for
    frame 0 of the (non-empty) backtrace whatever the end index is, also
    when it is negative: the output of that call directly follows the
    leading blank line, and nothing follows it when the end index is not
    above 0.  The call reports frame 0 unless the frame has a symtab and no
    function symbol; then line 28 raises inside the call and the command
    ends with that exception. *)
Theorem start_0_always_analyzes_frame_0 frame argv fend :
  result (frame_range argv) = inr (0, fend) ->
  (reportable frame = true ->
   In 0 (analyzed_frame_numbers (output (invoke (Some frame) argv))))
  /\ (reportable frame = false ->
      invoke (Some frame) argv = ([PrintLine ""], inl AttributeError))
  /\ exists rest,
      output (invoke (Some frame) argv)
      = PrintLine "" :: output (analyze_frame 0 frame) ++ rest
      /\ (fend <= 0 -> rest = []).
Proof.
  intros H. rewrite (invoke_selected _ _ _ _ H).
  assert (Hsel : exists others,
             selected_frames 0 fend (older_frames frame)
             = (0, frame) :: others
             /\ (fend <= 0 -> others = [])).
  { destruct (Z.le_gt_cases fend 0) as [He | He].
    - exists []. now rewrite selected_frames_first by lia.
    - unfold selected_frames, enumerate.
      destruct frame as [sal code pc regs old].
      cbn [older_frames enumerate_from firstn filter fst].
      change (0 <=? 0) with true. cbv iota.
      eexists. split; [reflexivity | lia]. }
  destruct Hsel as (others & -> & Hothers).
  cbn [report_all output result fst snd]. split; [| split].
  - intros Hf.
    rewrite (output_bind _ _ tt) by now apply analyze_frame_returns.
    change (PrintLine "" :: ?l) with ([PrintLine ""] ++ l).
    rewrite !analyzed_frame_numbers_app, (analyze_frame_number 0 frame Hf).
    cbn. now left.
  - intros Hf. now rewrite (analyze_frame_not_reportable 0 frame Hf).
  - destruct (reportable frame) eqn:Hf.
    + rewrite (output_bind _ _ tt) by now apply analyze_frame_returns.
      eexists. split; [reflexivity |].
      intros He. now rewrite (Hothers He).
    + rewrite (analyze_frame_not_reportable 0 frame Hf).
      exists []. split; [reflexivity | reflexivity].
Qed.

Lemma start_0_always_analyzes_frame_0_witness :
  In 0 (analyzed_frame_numbers
          (output (invoke (Some Sample.frame_work) [Some 0])))
  /\ exists rest,
      output (invoke (Some Sample.frame_work) [Some 0])
      = PrintLine "" :: output (analyze_frame 0 Sample.frame_work) ++ rest
      /\ (-1 <= 0 -> rest = []).
Proof.
  destruct (start_0_always_analyzes_frame_0 Sample.frame_work [Some 0] (-1))
    as (Hreport & _ & Hcall); [reflexivity |].
  split; [apply Hreport; reflexivity | exact Hcall].
Defined.

(** ** Failure handling *)

(** C7: without a selected frame the command prints the one line
    [NO_STACK] (a text without line break), prints nothing else and returns
    normally, whatever the arguments are. *)
Theorem no_frame_reports_once argv :
  invoke None argv = ([PrintLine NO_STACK], inr tt)
  /\ String.index 0 (String "010"%char "") NO_STACK = None.
Proof. split; reflexivity. Qed.

(** C8: for a frame without symtab, [analyze_frame] prints the fallback
    header and the registers, nothing else, and no symbol line. *)
Theorem no_symtab_prints_header_and_registers frame_nr frame :
  gdb.symtab (gdb.find_sal frame) = None ->
  analyze_frame frame_nr frame
  = ([PrintFallbackHeader frame_nr;
      PrintRegisters (gdb.pc frame) (gdb.read_register frame "sp")
        (gdb.read_register frame "fp")], inr tt)
  /\ printed_symbols (output (analyze_frame frame_nr frame)) = [].
Proof.
  intros H. rewrite printed_symbols_analyze_frame, H.
  split; [now apply analyze_frame_no_symtab | reflexivity].
Qed.

Lemma no_symtab_prints_header_and_registers_witness :
  analyze_frame 2 Sample.frame_start
  = ([PrintFallbackHeader 2;
      PrintRegisters (gdb.pc Sample.frame_start)
        (gdb.read_register Sample.frame_start "sp")
        (gdb.read_register Sample.frame_start "fp")], inr tt)
  /\ printed_symbols (output (analyze_frame 2 Sample.frame_start)) = [].
Proof.
  apply (no_symtab_prints_header_and_registers 2 Sample.frame_start).
  reflexivity.
Defined.

(** C9, at the input where the code departs from it: the frame at position
    1 of the second sample session has a symtab, and its block cannot be
    retrieved, because gdb has no function symbol for it.  The claim asks for
    a failure message and for the analysis of the remaining frames; the call
    for that frame raises at line 28 before it prints anything, no failure
    message is printed, the command ends with the exception, and frame 2 is
    never analyzed. *)
Theorem missing_function_symbol_aborts_command :
  gdb.symtab (gdb.find_sal Sample.frame_asm) = Some (gdb.mkSymtab "entry.S")
  /\ gdb.block Sample.frame_asm = None
  /\ analyze_frame 1 Sample.frame_asm = ([], inl AttributeError)
  /\ invoke (Some Sample.frame_callback) []
     = (PrintLine "" :: output (analyze_frame 0 Sample.frame_callback),
        inl AttributeError)
  /\ ~ In (PrintLine BLOCK_FAILURE)
          (output (invoke (Some Sample.frame_callback) []))
  /\ analyzed_frame_numbers
       (output (invoke (Some Sample.frame_callback) [])) = [0]
  /\ stack_depth Sample.frame_callback = 3.
Proof.
  repeat split; try reflexivity.
  cbn. intros H.
  repeat (destruct H as [H | H]; [discriminate |]). exact H.
Qed.

(** ** Dictionaries *)

Section Dict.

Context {V : Type}.
Implicit Types (d : dict V) (k : string) (v : V).

Lemma dict_contains_get d k :
  dict_contains d k = match dict_get d k with Some _ => true | None => false end.
Proof.
  induction d as [| [k' v'] d IH]; [reflexivity |].
  cbn. destruct (String.eqb k' k); [reflexivity | exact IH].
Qed.

Lemma dict_contains_keys d k : dict_contains d k = true <-> In k (keys d).
Proof.
  induction d as [| [k' v'] d IH]; cbn.
  - split; [discriminate | tauto].
  - destruct (String.eqb_spec k' k) as [-> | Hne].
    + tauto.
    + rewrite IH. split; [tauto | intros [H | H]; [contradiction | exact H]].
Qed.

Lemma dict_setitem_fresh d k v :
  dict_contains d k = false -> dict_setitem d k v = d ++ [(k, v)].
Proof.
  induction d as [| [k' v'] d IH]; cbn; [reflexivity |].
  destruct (String.eqb k' k); [discriminate |].
  intros H. now rewrite IH.
Qed.

Lemma dict_get_snoc d k v k' :
  dict_get (d ++ [(k, v)]) k'
  = match dict_get d k' with
    | Some w => Some w
    | None => if String.eqb k k' then Some v else None
    end.
Proof.
  induction d as [| [k0 v0] d IH]; cbn; [reflexivity |].
  destruct (String.eqb k0 k'); [reflexivity | exact IH].
Qed.

Lemma dict_get_In d k v : dict_get d k = Some v -> In (k, v) d.
Proof.
  induction d as [| [k' v'] d IH]; cbn; [discriminate |].
  destruct (String.eqb_spec k' k) as [-> | Hne].
  - intros [= ->]. now left.
  - intros H. right. now apply IH.
Qed.

Lemma dict_get_None d k : dict_get d k = None <-> ~ In k (keys d).
Proof.
  rewrite <- dict_contains_keys, dict_contains_get.
  destruct (dict_get d k); split; intros H; try discriminate; try reflexivity.
  now contradiction H.
Qed.

(** With distinct keys, a lookup finds the one item of that key. *)
Lemma In_dict_get d k v : NoDup (keys d) -> In (k, v) d -> dict_get d k = Some v.
Proof.
  induction d as [| [k' v'] d IH]; cbn; [tauto |].
  intros Hnd [[= -> ->] | Hin].
  - now rewrite String.eqb_refl.
  - inversion Hnd as [| ? ? Hk Hnd']; subst.
    destruct (String.eqb_spec k' k) as [-> | Hne].
    + contradiction Hk. change k with (fst (k, v)). now apply in_map.
    + now apply IH.
Qed.

Lemma dict_get_Permutation d d' k :
  NoDup (keys d) -> Permutation d d' -> dict_get d' k = dict_get d k.
Proof.
  intros Hnd Hp.
  assert (Hnd' : NoDup (keys d')).
  { apply (Permutation_NoDup (l := keys d)); [| exact Hnd].
    now apply Permutation_map. }
  destruct (dict_get d k) as [v |] eqn:Hg.
  - apply In_dict_get; [exact Hnd' |].
    apply (Permutation_in _ Hp). now apply dict_get_In.
  - apply dict_get_None. apply dict_get_None in Hg.
    intros Hin. apply Hg.
    apply (Permutation_in (l := keys d')); [| exact Hin].
    apply Permutation_map. now apply Permutation_sym.
Qed.

Lemma OrderedDict_from d (items : dict V) :
  NoDup (keys (d ++ items)) ->
  fold_left (fun d kv => dict_setitem d (fst kv) (snd kv)) items d
  = d ++ items.
Proof.
  revert d. induction items as [| [k v] items IH]; intros d Hnd; cbn.
  - now rewrite app_nil_r.
  - rewrite dict_setitem_fresh.
    + rewrite IH; rewrite <- app_assoc; [reflexivity | exact Hnd].
    + destruct (dict_contains d k) eqn:Hc; [| reflexivity].
      apply dict_contains_keys in Hc.
      unfold keys in Hnd. rewrite map_app in Hnd. cbn in Hnd.
      apply NoDup_remove_2 in Hnd. contradiction Hnd.
      apply in_or_app. now left.
Qed.

(** Building an [OrderedDict] from items of distinct keys keeps them as
    they are. *)
Lemma OrderedDict_NoDup (items : dict V) :
  NoDup (keys items) -> OrderedDict items = items.
Proof. intros H. unfold OrderedDict. now rewrite OrderedDict_from. Qed.

End Dict.

(** ** Collecting the symbols of a frame *)

Lemma Block_chain_ind (P : gdb.Block -> Prop) :
  (forall g s syms, P (gdb.mkBlock g s syms None)) ->
  (forall g s syms sb, P sb -> P (gdb.mkBlock g s syms (Some sb))) ->
  forall b, P b.
Proof.
  intros Hnone Hsome. fix IH 1. intros [g s syms [sb |]].
  - apply Hsome, IH.
  - apply Hnone.
Qed.

Lemma visit_symbol_spec symbols symbol :
  visit_symbol symbols symbol
  = if on_call_stack symbol && negb (dict_contains symbols (gdb.name symbol))
    then symbols ++ [(gdb.name symbol, entry_of symbol)]
    else symbols.
Proof.
  unfold visit_symbol, entry_of. destruct (on_call_stack symbol); cbn; [| reflexivity].
  destruct (dict_contains symbols (gdb.name symbol)) eqn:Hc; cbn; [reflexivity |].
  now apply dict_setitem_fresh.
Qed.

Lemma visit_block_spec symbols block :
  visit_block symbols block
  = fold_left visit_symbol
      (if is_local_scope block then gdb.block_symbols block else []) symbols.
Proof.
  unfold visit_block, is_local_scope.
  now destruct (negb (gdb.is_global block || gdb.is_static block)).
Qed.

(** The walk over the blocks is one pass over [declarations]. *)
Lemma collect_symbols_declarations block : forall symbols,
  collect_symbols block symbols
  = fold_left visit_symbol (declarations block) symbols.
Proof.
  induction block as [g s syms | g s syms sb IH] using Block_chain_ind;
    intros symbols; cbn [collect_symbols gdb.superblock].
  - rewrite visit_block_spec. unfold declarations.
    cbn [scopes gdb.superblock filter].
    destruct (is_local_scope _); cbn; [now rewrite app_nil_r | reflexivity].
  - rewrite IH, visit_block_spec. unfold declarations.
    cbn [scopes gdb.superblock filter].
    destruct (is_local_scope _); cbn [flat_map].
    + now rewrite fold_left_app.
    + reflexivity.
Qed.

Lemma visit_symbols_NoDup decls : forall symbols,
  NoDup (keys symbols) -> NoDup (keys (fold_left visit_symbol decls symbols)).
Proof.
  induction decls as [| s decls IH]; intros symbols Hnd; [exact Hnd |].
  cbn [fold_left]. apply IH. rewrite visit_symbol_spec.
  destruct (on_call_stack s); cbn; [| exact Hnd].
  destruct (dict_contains symbols (gdb.name s)) eqn:Hc; cbn; [exact Hnd |].
  unfold keys. rewrite map_app. cbn.
  apply NoDup_app_remove_l with (l := []). cbn.
  apply (Permutation_NoDup (l := gdb.name s :: map fst symbols)).
  - apply Permutation_cons_append.
  - constructor; [| exact Hnd].
    intros Hin. apply dict_contains_keys in Hin. congruence.
Qed.

Lemma visit_symbols_get decls name : forall symbols,
  dict_get (fold_left visit_symbol decls symbols) name
  = match dict_get symbols name with
    | Some v => Some v
    | None =>
        option_map entry_of
          (find (fun s => on_call_stack s && String.eqb (gdb.name s) name) decls)
    end.
Proof.
  induction decls as [| s decls IH]; intros symbols; cbn [fold_left find].
  - now destruct (dict_get symbols name).
  - rewrite IH, visit_symbol_spec.
    destruct (on_call_stack s); cbn [andb]; [| reflexivity].
    rewrite dict_contains_get.
    destruct (String.eqb_spec (gdb.name s) name) as [<- | Hne].
    + destruct (dict_get symbols (gdb.name s)) eqn:Hg; cbn [negb].
      * now rewrite Hg.
      * now rewrite dict_get_snoc, Hg, String.eqb_refl.
    + destruct (dict_get symbols (gdb.name s)) eqn:Hg; cbn [negb];
        [reflexivity |].
      rewrite dict_get_snoc.
      destruct (dict_get symbols name); [reflexivity |].
      apply String.eqb_neq in Hne. now rewrite Hne.
Qed.

Lemma collect_symbols_NoDup block : NoDup (keys (collect_symbols block [])).
Proof.
  rewrite collect_symbols_declarations. apply visit_symbols_NoDup. constructor.
Qed.

Lemma collect_symbols_get block name :
  dict_get (collect_symbols block []) name
  = option_map entry_of (first_declaration block name).
Proof.
  rewrite collect_symbols_declarations, visit_symbols_get. reflexivity.
Qed.

(** ** Sorting by size *)

Lemma insert_by_size_perm x l : Permutation (insert_by_size x l) (x :: l).
Proof.
  induction l as [| y l IH]; cbn; [reflexivity |].
  destruct (size (snd x) <? size (snd y)); [| reflexivity].
  rewrite IH. apply perm_swap.
Qed.

Lemma sorted_by_size_perm items : Permutation (sorted_by_size items) items.
Proof.
  induction items as [| x items IH]; cbn; [constructor |].
  rewrite insert_by_size_perm. now constructor.
Qed.

Lemma insert_by_size_sorted x l :
  StronglySorted by_size_desc l ->
  StronglySorted by_size_desc (insert_by_size x l).
Proof.
  induction l as [| y l IH]; intros Hs; cbn.
  - constructor; constructor.
  - apply StronglySorted_inv in Hs. destruct Hs as [Hl Hy].
    destruct (Z.ltb_spec (size (snd x)) (size (snd y))) as [Hlt | Hge].
    + constructor; [now apply IH |].
      apply Forall_forall. intros z Hz.
      apply (Permutation_in _ (insert_by_size_perm x l)) in Hz.
      destruct Hz as [<- | Hz].
      * unfold by_size_desc. lia.
      * revert z Hz. now apply Forall_forall.
    + constructor; [now constructor |].
      constructor; [exact Hge |].
      apply Forall_forall. intros z Hz.
      rewrite Forall_forall in Hy. specialize (Hy z Hz).
      unfold by_size_desc in *. lia.
Qed.

Lemma sorted_by_size_sorted items :
  StronglySorted by_size_desc (sorted_by_size items).
Proof.
  induction items as [| x items IH]; cbn; [constructor |].
  now apply insert_by_size_sorted.
Qed.

(** An inserted item never passes an item of its own size. *)
Lemma insert_by_size_stable s x l :
  filter (has_size s) (insert_by_size x l) = filter (has_size s) (x :: l).
Proof.
  induction l as [| y l IH]; [reflexivity |].
  cbn [insert_by_size].
  destruct (Z.ltb_spec (size (snd x)) (size (snd y))) as [Hlt | Hge];
    [| reflexivity].
  cbn [filter] in *. rewrite IH. unfold has_size.
  destruct (Z.eqb_spec (size (snd x)) s) as [Hx | Hx];
    destruct (Z.eqb_spec (size (snd y)) s) as [Hy | Hy];
    try reflexivity.
  lia.
Qed.

Lemma sorted_by_size_stable s items :
  filter (has_size s) (sorted_by_size items) = filter (has_size s) items.
Proof.
  induction items as [| x items IH]; [reflexivity |].
  cbn [sorted_by_size]. rewrite insert_by_size_stable.
  cbn [filter]. now rewrite IH.
Qed.

Lemma frame_symbols_sorted block :
  frame_symbols block = sorted_by_size (collect_symbols block []).
Proof.
  unfold frame_symbols. apply OrderedDict_NoDup.
  apply (Permutation_NoDup (l := keys (collect_symbols block []))).
  - apply Permutation_map, Permutation_sym, sorted_by_size_perm.
  - apply collect_symbols_NoDup.
Qed.

Lemma frame_symbols_NoDup block : NoDup (keys (frame_symbols block)).
Proof.
  rewrite frame_symbols_sorted.
  apply (Permutation_NoDup (l := keys (collect_symbols block []))).
  - apply Permutation_map, Permutation_sym, sorted_by_size_perm.
  - apply collect_symbols_NoDup.
Qed.

Lemma frame_symbols_get block name :
  dict_get (frame_symbols block) name
  = option_map entry_of (first_declaration block name).
Proof.
  rewrite frame_symbols_sorted, <- collect_symbols_get.
  apply dict_get_Permutation.
  - apply collect_symbols_NoDup.
  - apply Permutation_sym, sorted_by_size_perm.
Qed.

Lemma addr_class_eqb_eq a b : gdb.addr_class_eqb a b = true <-> a = b.
Proof. destruct a, b; cbn; split; intros H; congruence. Qed.

Lemma on_call_stack_spec s :
  on_call_stack s = true
  <-> gdb.is_argument s = true
      \/ (gdb.is_variable s = true
          /\ gdb.addr_class s <> gdb.SYMBOL_LOC_STATIC).
Proof.
  unfold on_call_stack.
  rewrite orb_true_iff, andb_true_iff, negb_true_iff.
  rewrite <- addr_class_eqb_eq.
  destruct (gdb.addr_class_eqb _ _); intuition congruence.
Qed.

(** ** The symbol list of a frame *)

(** C4: the printed symbol list of a frame has no two entries of the same
    name, and the entry of a name carries size and type of the first
    declaration of that name met on the walk from the innermost block
    outward (among the declarations that live on the call stack). *)
Theorem printed_names_unique_inner_wins frame_nr frame :
  NoDup (keys (printed_symbols (output (analyze_frame frame_nr frame))))
  /\ forall st b name,
      gdb.symtab (gdb.find_sal frame) = Some st ->
      gdb.block frame = Some b ->
      dict_get (printed_symbols (output (analyze_frame frame_nr frame))) name
      = option_map entry_of (first_declaration b name).
Proof.
  rewrite printed_symbols_analyze_frame. split.
  - destruct (gdb.symtab _); [| constructor].
    destruct (gdb.block frame); [apply frame_symbols_NoDup | constructor].
  - intros st b name -> ->. apply frame_symbols_get.
Qed.

Lemma printed_names_unique_inner_wins_witness :
  NoDup (keys (printed_symbols
                 (output (analyze_frame 0 Sample.frame_work))))
  /\ dict_get (printed_symbols (output (analyze_frame 0 Sample.frame_work)))
       "buf"
     = Some (mkSymbol 4096 Sample.buffer_t).
Proof.
  destruct (printed_names_unique_inner_wins 0 Sample.frame_work) as [Hnd Hget].
  split; [exact Hnd |].
  rewrite (Hget (gdb.mkSymtab "work.c") Sample.inner_block "buf");
    reflexivity.
Defined.

(** C5: every entry of the printed symbol list comes from a declaration in
    a block of the frame that is neither global nor static, and that
    declaration is an argument or a variable whose address class is not
    static. *)
Theorem printed_symbols_live_on_stack frame_nr frame name sym :
  In (name, sym) (printed_symbols (output (analyze_frame frame_nr frame))) ->
  exists b blk s,
    gdb.block frame = Some b
    /\ In blk (scopes b)
    /\ gdb.is_global blk = false /\ gdb.is_static blk = false
    /\ In s (gdb.block_symbols blk)
    /\ gdb.name s = name /\ sym = entry_of s
    /\ (gdb.is_argument s = true
        \/ (gdb.is_variable s = true
            /\ gdb.addr_class s <> gdb.SYMBOL_LOC_STATIC)).
Proof.
  rewrite printed_symbols_analyze_frame.
  destruct (gdb.symtab _) as [st |]; [| intros []].
  destruct (gdb.block frame) as [b |]; [| intros []].
  intros Hin.
  apply In_dict_get in Hin; [| apply frame_symbols_NoDup].
  rewrite frame_symbols_get in Hin. unfold first_declaration in Hin.
  destruct (find _ (declarations b)) as [s |] eqn:Hf; [| discriminate].
  injection Hin as <-.
  apply find_some in Hf. destruct Hf as [Hdecl Hs].
  apply andb_true_iff in Hs. destruct Hs as [Hstack Hname].
  apply String.eqb_eq in Hname. apply on_call_stack_spec in Hstack.
  unfold declarations in Hdecl. apply in_flat_map in Hdecl.
  destruct Hdecl as (blk & Hblk & Hsym).
  apply filter_In in Hblk. destruct Hblk as [Hscope Hlocal].
  unfold is_local_scope in Hlocal.
  apply negb_true_iff, orb_false_iff in Hlocal. destruct Hlocal as [Hg Hst].
  exists b, blk, s. repeat split; assumption.
Qed.

Lemma printed_symbols_live_on_stack_witness :
  exists b blk s,
    gdb.block Sample.frame_work = Some b
    /\ In blk (scopes b)
    /\ gdb.is_global blk = false /\ gdb.is_static blk = false
    /\ In s (gdb.block_symbols blk)
    /\ gdb.name s = "n" /\ mkSymbol 4 Sample.int_t = entry_of s
    /\ (gdb.is_argument s = true
        \/ (gdb.is_variable s = true
            /\ gdb.addr_class s <> gdb.SYMBOL_LOC_STATIC)).
Proof.
  apply (printed_symbols_live_on_stack 0 Sample.frame_work "n"
           (mkSymbol 4 Sample.int_t)).
  cbn. tauto.
Defined.

(** C6: the printed symbol list of a frame is in non-increasing order of
    size, and the entries of any one size stand in the order in which the
    walk collected them. *)
Theorem printed_symbols_sorted_stable frame_nr frame :
  StronglySorted by_size_desc
    (printed_symbols (output (analyze_frame frame_nr frame)))
  /\ forall st b s,
      gdb.symtab (gdb.find_sal frame) = Some st ->
      gdb.block frame = Some b ->
      filter (has_size s)
        (printed_symbols (output (analyze_frame frame_nr frame)))
      = filter (has_size s) (collect_symbols b []).
Proof.
  rewrite printed_symbols_analyze_frame. split.
  - destruct (gdb.symtab _); [| constructor].
    destruct (gdb.block frame) as [b |]; [| constructor].
    rewrite frame_symbols_sorted. apply sorted_by_size_sorted.
  - intros st b s -> ->.
    rewrite frame_symbols_sorted. apply sorted_by_size_stable.
Qed.

Lemma printed_symbols_sorted_stable_witness :
  StronglySorted by_size_desc
    (printed_symbols (output (analyze_frame 0 Sample.frame_work)))
  /\ filter (has_size 4)
       (printed_symbols (output (analyze_frame 0 Sample.frame_work)))
     = [("i", mkSymbol 4 Sample.int_t); ("j", mkSymbol 4 Sample.int_t);
        ("n", mkSymbol 4 Sample.int_t)].
Proof.
  destruct (printed_symbols_sorted_stable 0 Sample.frame_work) as [Hs Hf].
  split; [exact Hs |].
  rewrite (Hf (gdb.mkSymtab "work.c") Sample.inner_block 4); reflexivity.
Defined.

(** * Further properties of the command *)

(** ** Ranges *)

(** X1: with a single argument [n >= 1], and as long as every frame below
    number [n] that has a symtab also has a function symbol, the command
    analyzes exactly the frames [0 .. min(n, L) - 1], in this order. *)
Theorem one_argument_limits_to_first_frames frame n :
  1 <= n ->
  all_reportable (selected_frames 0 (n - 1) (older_frames frame)) = true ->
  analyzed_frame_numbers (output (invoke (Some frame) [Some n]))
  = zrange 0 (Z.min n (stack_depth frame)).
Proof.
  intros H Hall. rewrite (invoke_analyzed _ _ 0 (n - 1)) by easy.
  f_equal; lia.
Qed.

Lemma one_argument_limits_to_first_frames_witness :
  analyzed_frame_numbers (output (invoke (Some Sample.frame_work) [Some 2]))
  = zrange 0 (Z.min 2 (stack_depth Sample.frame_work)).
Proof.
  apply (one_argument_limits_to_first_frames Sample.frame_work 2);
    [lia | reflexivity].
Defined.

(** X2: with arguments [start count] such that the range starts above
    frame 0 or reaches it ([1 <= start] or [1 <= start + count]), and as long
    as every frame of the range that has a symtab also has a function symbol,
    the command analyzes exactly the frames
    [max(start, 0) .. min(L, start+count) - 1], in this order; words after the
    second are not looked at. *)
Theorem two_arguments_select_interval frame start count rest :
  1 <= start \/ 1 <= start + count ->
  all_reportable
    (selected_frames start (start + count - 1) (older_frames frame)) = true ->
  analyzed_frame_numbers
    (output (invoke (Some frame) (Some start :: Some count :: rest)))
  = zrange (Z.max start 0) (Z.min (stack_depth frame) (start + count)).
Proof.
  intros H Hall.
  rewrite (invoke_analyzed _ _ start (start + count - 1)) by easy.
  destruct (Z.le_gt_cases 1 (start + count)) as [Hc | Hc].
  - f_equal. lia.
  - rewrite !zrange_nil; [reflexivity | lia | lia].
Qed.

Lemma two_arguments_select_interval_witness :
  analyzed_frame_numbers
    (output (invoke (Some Sample.frame_work) [Some (-1); Some 3; None]))
  = zrange (Z.max (-1) 0) (Z.min (stack_depth Sample.frame_work) (-1 + 3)).
Proof.
  apply (two_arguments_select_interval Sample.frame_work (-1) 3 [None]);
    [lia | reflexivity].
Defined.

(** X3: whatever the arguments, the analyzed frames are a run of
    consecutive frame numbers inside the backtrace: no frame is reported
    twice or out of order, and no number outside [0 .. L-1] is reported. *)
Theorem analyzed_frames_consecutive_in_backtrace frame argv :
  exists lo hi,
    0 <= lo /\ hi <= stack_depth frame
    /\ analyzed_frame_numbers (output (invoke (Some frame) argv))
       = zrange lo hi.
Proof.
  pose proof (stack_depth_pos frame) as Hd.
  destruct (result (frame_range argv)) as [e | [fstart fend]] eqn:Hr.
  - exists 0, 0. repeat split; try lia.
    now rewrite (invoke_bad_argument _ _ _ Hr).
  - rewrite (invoke_selected _ _ _ _ Hr). unfold output at 1. cbn [fst].
    change (PrintLine "" :: ?l) with ([PrintLine ""] ++ l).
    rewrite analyzed_frame_numbers_app, report_all_output, reported_numbers.
    destruct (reported_firstn
                (selected_frames fstart fend (older_frames frame)))
      as [k ->].
    rewrite <- firstn_map, selected_frame_numbers, firstn_zrange.
    cbn [analyzed_frame_numbers flat_map header_frame_nr app].
    eexists _, _. split; [| split; [| reflexivity]]; lia.
Qed.

(** ** Errors *)

Lemma frame_range_raises argv e :
  result (frame_range argv) = inl e
  <-> e = gdb_error
      /\ (nth_error argv 0 = Some None \/ nth_error argv 1 = Some None).
Proof.
  destruct argv as [| [a0 |] [| [a1 |] argv]]; cbn; split;
    try discriminate;
    try (intros [_ [H | H]]; discriminate);
    try (intros [= <-]; split; [reflexivity | tauto]);
    try (intros [-> _]; reflexivity).
Qed.

(** X4: the command raises in two cases only, both with a selected frame.
    When the first or the second word of the command line cannot be
    evaluated it raises gdb's error, and nothing has been printed by then.
    When the words are fine and one of the selected frames has a symtab and
    no function symbol it raises [AttributeError] (line 28), after the
    leading blank line and the reports of the frames before that one.  Later
    words are never evaluated, and without a selected frame the command
    returns normally. *)
Theorem invoke_raises_exactly_when selected_frame argv e :
  (result (invoke selected_frame argv) = inl e
   <-> exists frame,
         selected_frame = Some frame
         /\ ((e = gdb_error
              /\ (nth_error argv 0 = Some None
                  \/ nth_error argv 1 = Some None))
             \/ (e = AttributeError
                 /\ exists fstart fend,
                      result (frame_range argv) = inr (fstart, fend)
                      /\ all_reportable
                           (selected_frames fstart fend (older_frames frame))
                         = false)))
  /\ (result (invoke selected_frame argv) = inl gdb_error ->
      output (invoke selected_frame argv) = [])
  /\ (result (invoke selected_frame argv) = inl AttributeError ->
      exists reports,
        output (invoke selected_frame argv) = PrintLine "" :: reports).
Proof.
  destruct selected_frame as [frame |].
  - destruct (result (frame_range argv)) as [e' | [fstart fend]] eqn:Hr.
    + assert (He' : e' = gdb_error) by now apply (frame_range_raises argv).
      subst e'. rewrite (invoke_bad_argument _ _ _ Hr).
      cbn [result output fst snd]. split; [| split; [reflexivity | discriminate]].
      split.
      * intros [= <-]. exists frame. split; [reflexivity |]. left.
        now apply frame_range_raises.
      * intros (frame' & _ & [[-> _] | (_ & fs & fe & Hok & _)]);
          [reflexivity | congruence].
    + rewrite (invoke_selected _ _ _ _ Hr). cbn [result output fst snd].
      rewrite report_all_result.
      destruct (all_reportable
                  (selected_frames fstart fend (older_frames frame)))
        eqn:Hall.
      * split; [| split; discriminate]. split; [discriminate |].
        intros (frame' & [= <-] & [[-> Hbad] | (_ & fs & fe & Hok & Hno)]).
        -- assert (Hbad' : result (frame_range argv) = inl gdb_error)
             by (apply frame_range_raises; tauto).
           congruence.
        -- assert (Heq : (fs, fe) = (fstart, fend)) by congruence.
           injection Heq as -> ->. congruence.
      * split; [| split; [discriminate | intros _; now eexists]].
        split.
        -- intros [= <-]. exists frame. split; [reflexivity |]. right.
           split; [reflexivity |]. now exists fstart, fend.
        -- intros (frame' & _ & [[-> Hbad] | [-> _]]); [| reflexivity].
           assert (Hbad' : result (frame_range argv) = inl gdb_error)
             by (apply frame_range_raises; tauto).
           congruence.
  - cbn. split; [| split; discriminate].
    split; [discriminate | intros (frame & Hf & _); discriminate].
Qed.

(** ** Reports *)

(** X5: the report of a frame that has no symtab or has a function symbol
    never raises; it starts with one header line that carries the frame's
    number, followed by the register line with the frame's pc, sp and fp, and
    it has no further header line.  For a frame with a symtab and without
    function symbol the call raises [AttributeError] and prints nothing. *)
Theorem report_starts_with_header_and_registers frame_nr frame :
  if reportable frame then
    result (analyze_frame frame_nr frame) = inr tt
    /\ exists header rest,
        output (analyze_frame frame_nr frame)
        = header
            :: PrintRegisters (gdb.pc frame) (gdb.read_register frame "sp")
                 (gdb.read_register frame "fp")
            :: rest
        /\ header_frame_nr header = [frame_nr]
        /\ analyzed_frame_numbers rest = []
  else analyze_frame frame_nr frame = ([], inl AttributeError).
Proof.
  destruct (reportable frame) eqn:Hr;
    [| now apply analyze_frame_not_reportable].
  split; [now apply analyze_frame_returns |].
  unfold reportable in Hr.
  destruct (gdb.symtab (gdb.find_sal frame)) as [st |] eqn:Hs.
  - destruct (gdb.function frame) as [f |] eqn:Hf; [| discriminate].
    destruct (gdb.block frame) as [b |] eqn:Hb.
    + rewrite (analyze_frame_block _ _ _ _ Hs Hb). cbn [output fst app].
      eexists _, _. split; [reflexivity |]. split; [reflexivity |].
      rewrite analyzed_frame_numbers_app, analyzed_frame_numbers_symbols.
      reflexivity.
    + rewrite (analyze_frame_no_block _ _ _ _ Hs Hf Hb).
      eexists _, _. repeat split.
  - rewrite (analyze_frame_no_symtab _ _ Hs).
    eexists _, _. repeat split.
Qed.

(** ** The output as a whole *)

(** X6: with valid arguments the output of the command is one blank line
    followed by the reports of the selected frames, one after the other in
    backtrace order, each frame reported under its position in the
    backtrace, up to the first selected frame that has a symtab and no
    function symbol: there the command ends with [AttributeError], and
    otherwise it returns normally.  A frame at position [i] is selected
    exactly when [fstart <= i] and either [i <= fend] or [i = 0]. *)
Theorem output_is_reports_of_selected_frames frame argv fstart fend :
  result (frame_range argv) = inr (fstart, fend) ->
  invoke (Some frame) argv
  = (PrintLine ""
       :: flat_map (fun p => output (analyze_frame (fst p) (snd p)))
            (reported (selected_frames fstart fend (older_frames frame))),
     if all_reportable (selected_frames fstart fend (older_frames frame))
     then inr tt else inl AttributeError)
  /\ map fst (selected_frames fstart fend (older_frames frame))
     = zrange (Z.max fstart 0)
         (Z.min (stack_depth frame) (Z.max fend 0 + 1))
  /\ forall i f,
      In (i, f) (selected_frames fstart fend (older_frames frame))
      <-> 0 <= i /\ nth_error (older_frames frame) (Z.to_nat i) = Some f
          /\ fstart <= i /\ (i <= fend \/ i = 0).
Proof.
  intros H. split; [| split].
  - rewrite (invoke_selected _ _ _ _ H).
    now rewrite report_all_output, report_all_result.
  - apply selected_frame_numbers.
  - intros i f. apply in_selected_frames_iff.
Qed.

Lemma output_is_reports_of_selected_frames_witness :
  invoke (Some Sample.frame_callback) [Some 0; Some 3]
  = (PrintLine ""
       :: flat_map (fun p => output (analyze_frame (fst p) (snd p)))
            (reported
               (selected_frames 0 2 (older_frames Sample.frame_callback))),
     if all_reportable
          (selected_frames 0 2 (older_frames Sample.frame_callback))
     then inr tt else inl AttributeError)
  /\ map fst (selected_frames 0 2 (older_frames Sample.frame_callback))
     = zrange (Z.max 0 0)
         (Z.min (stack_depth Sample.frame_callback) (Z.max 2 0 + 1))
  /\ forall i f,
      In (i, f) (selected_frames 0 2 (older_frames Sample.frame_callback))
      <-> 0 <= i
          /\ nth_error (older_frames Sample.frame_callback) (Z.to_nat i)
             = Some f
          /\ 0 <= i /\ (i <= 2 \/ i = 0).
Proof.
  apply (output_is_reports_of_selected_frames Sample.frame_callback
           [Some 0; Some 3] 0 2).
  reflexivity.
Defined.

(** X7: when the requested range lies beyond the backtrace, or is empty
    and starts above frame 0, the command prints the leading blank line,
    nothing else, and returns normally. *)
Theorem empty_selection_prints_blank_line_only frame argv fstart fend :
  result (frame_range argv) = inr (fstart, fend) ->
  stack_depth frame <= fstart \/ (1 <= fstart /\ fend < fstart) ->
  invoke (Some frame) argv = ([PrintLine ""], inr tt).
Proof.
  intros Hr Hempty. rewrite (invoke_selected _ _ _ _ Hr).
  now rewrite (selected_frames_none _ _ _ Hempty).
Qed.

Lemma empty_selection_prints_blank_line_only_witness :
  invoke (Some Sample.frame_work) [Some 3; Some 2] = ([PrintLine ""], inr tt).
Proof.
  apply (empty_selection_prints_blank_line_only Sample.frame_work
           [Some 3; Some 2] 3 4).
  - reflexivity.
  - left. cbn. lia.
Defined.

(** ** The symbols of a frame *)

Lemma first_declaration_Some block name :
  first_declaration block name <> None
  <-> exists blk s,
        In blk (scopes block)
        /\ gdb.is_global blk = false /\ gdb.is_static blk = false
        /\ In s (gdb.block_symbols blk)
        /\ gdb.name s = name /\ on_call_stack s = true.
Proof.
  unfold first_declaration. split.
  - destruct (find _ (declarations block)) as [s |] eqn:Hf;
      [intros _ | intros H; now contradiction H].
    apply find_some in Hf. destruct Hf as [Hdecl Hs].
    apply andb_true_iff in Hs. destruct Hs as [Hstack Hname].
    apply String.eqb_eq in Hname.
    unfold declarations in Hdecl. apply in_flat_map in Hdecl.
    destruct Hdecl as (blk & Hblk & Hsym).
    apply filter_In in Hblk. destruct Hblk as [Hscope Hlocal].
    unfold is_local_scope in Hlocal.
    apply negb_true_iff, orb_false_iff in Hlocal. destruct Hlocal as [Hg Hst].
    exists blk, s. repeat split; assumption.
  - intros (blk & s & Hscope & Hg & Hst & Hsym & Hname & Hstack) Hnone.
    assert (Hdecl : In s (declarations block)).
    { unfold declarations. apply in_flat_map. exists blk. split; [| exact Hsym].
      apply filter_In. split; [exact Hscope |].
      unfold is_local_scope. now rewrite Hg, Hst. }
    pose proof (find_none _ _ Hnone s Hdecl) as Hfalse.
    cbn beta in Hfalse. rewrite Hstack, Hname, String.eqb_refl in Hfalse.
    discriminate.
Qed.

(** X8: for a frame with symtab and block, a name is in the printed symbol
    list exactly when some block of the frame that is neither global nor
    static declares a symbol of that name that passes the test of lines
    65-66: no such symbol is dropped, and no other name appears. *)
Theorem printed_names_are_the_stack_declarations frame_nr frame st b name :
  gdb.symtab (gdb.find_sal frame) = Some st ->
  gdb.block frame = Some b ->
  In name (keys (printed_symbols (output (analyze_frame frame_nr frame))))
  <-> exists blk s,
        In blk (scopes b)
        /\ gdb.is_global blk = false /\ gdb.is_static blk = false
        /\ In s (gdb.block_symbols blk)
        /\ gdb.name s = name /\ on_call_stack s = true.
Proof.
  intros Hs Hb. rewrite printed_symbols_analyze_frame, Hs, Hb.
  rewrite <- first_declaration_Some.
  rewrite <- dict_contains_keys, dict_contains_get, frame_symbols_get.
  destruct (first_declaration b name); cbn; split; congruence.
Qed.

Lemma printed_names_are_the_stack_declarations_witness :
  In "total"
     (keys (printed_symbols (output (analyze_frame 0 Sample.frame_work))))
  <-> exists blk s,
        In blk (scopes Sample.inner_block)
        /\ gdb.is_global blk = false /\ gdb.is_static blk = false
        /\ In s (gdb.block_symbols blk)
        /\ gdb.name s = "total" /\ on_call_stack s = true.
Proof.
  apply (printed_names_are_the_stack_declarations 0 Sample.frame_work
           (gdb.mkSymtab "work.c") Sample.inner_block "total");
    reflexivity.
Defined.

(** X9: the report of a frame with symtab and block is the header line,
    the register line, one line per collected symbol and a closing blank
    line; sorting neither drops nor adds an entry: the printed list is a
    rearrangement of the collected dictionary. *)
Theorem report_with_symbols_shape frame_nr frame st b :
  gdb.symtab (gdb.find_sal frame) = Some st ->
  gdb.block frame = Some b ->
  output (analyze_frame frame_nr frame)
  = [PrintHeader frame_nr (gdb.function_name frame) (gdb.filename st)
       (gdb.line (gdb.find_sal frame));
     PrintRegisters (gdb.pc frame) (gdb.read_register frame "sp")
       (gdb.read_register frame "fp")]
    ++ map (fun it => PrintSymbol (size (snd it)) (fst it) (typename (snd it)))
         (printed_symbols (output (analyze_frame frame_nr frame)))
    ++ [PrintLine ""]
  /\ Permutation (printed_symbols (output (analyze_frame frame_nr frame)))
       (collect_symbols b []).
Proof.
  intros Hs Hb. rewrite printed_symbols_analyze_frame, Hs, Hb. split.
  - now rewrite (analyze_frame_block _ _ _ _ Hs Hb).
  - rewrite frame_symbols_sorted. apply sorted_by_size_perm.
Qed.

Lemma report_with_symbols_shape_witness :
  output (analyze_frame 0 Sample.frame_work)
  = [PrintHeader 0 "work" "work.c" 42;
     PrintRegisters 4198600 "0x7ffe0010" "0x7ffe0040"]
    ++ map (fun it => PrintSymbol (size (snd it)) (fst it) (typename (snd it)))
         (printed_symbols (output (analyze_frame 0 Sample.frame_work)))
    ++ [PrintLine ""]
  /\ Permutation (printed_symbols (output (analyze_frame 0 Sample.frame_work)))
       (collect_symbols Sample.inner_block []).
Proof.
  apply (report_with_symbols_shape 0 Sample.frame_work
           (gdb.mkSymtab "work.c") Sample.inner_block);
    reflexivity.
Defined.

Lemma existsb_eqb_In k seen :
  existsb (String.eqb k) seen = true <-> In k seen.
Proof.
  rewrite existsb_exists. split.
  - intros (x & Hin & Heq). apply String.eqb_eq in Heq. now subst.
  - intros Hin. exists k. split; [exact Hin | apply String.eqb_refl].
Qed.

Lemma visit_symbols_first_by_name decls : forall symbols seen,
  (forall k, In k seen <-> In k (keys symbols)) ->
  fold_left visit_symbol decls symbols
  = symbols ++ first_by_name seen (map item_of (filter on_call_stack decls)).
Proof.
  induction decls as [| s decls IH]; intros symbols seen Hseen;
    cbn [fold_left filter].
  - cbn. now rewrite app_nil_r.
  - rewrite visit_symbol_spec.
    destruct (on_call_stack s); cbn [andb]; [| now apply IH].
    cbn [map first_by_name item_of].
    destruct (dict_contains symbols (gdb.name s)) eqn:Hc; cbn [negb].
    + assert (He : existsb (String.eqb (gdb.name s)) seen = true).
      { apply existsb_eqb_In, Hseen. now apply dict_contains_keys. }
      rewrite He. now apply IH.
    + assert (He : existsb (String.eqb (gdb.name s)) seen = false).
      { destruct (existsb _ seen) eqn:He; [| reflexivity].
        apply existsb_eqb_In, Hseen, dict_contains_keys in He. congruence. }
      rewrite He.
      rewrite (IH _ (gdb.name s :: seen)).
      * now rewrite <- app_assoc.
      * intros k. unfold keys. rewrite map_app, in_app_iff. cbn.
        fold (keys symbols). rewrite <- Hseen. tauto.
Qed.

(** X10: the walk collects the declarations that pass the test of lines
    65-66 in the order it meets them, innermost block first and each block
    in its own order, keeping for every name the first one only. *)
Theorem symbols_collected_in_walk_order block :
  collect_symbols block []
  = first_by_name [] (map item_of (filter on_call_stack (declarations block))).
Proof.
  rewrite collect_symbols_declarations.
  rewrite (visit_symbols_first_by_name _ [] []); [reflexivity |].
  intros k. reflexivity.
Qed.

(** X11: in every printed symbol line the size is the size of the type
    printed beside it. *)
Theorem printed_size_is_size_of_printed_type frame_nr frame name sym :
  In (name, sym) (printed_symbols (output (analyze_frame frame_nr frame))) ->
  size sym = gdb.sizeof (typename sym).
Proof.
  rewrite printed_symbols_analyze_frame.
  destruct (gdb.symtab _) as [st |]; [| intros []].
  destruct (gdb.block frame) as [b |]; [| intros []].
  intros Hin.
  apply In_dict_get in Hin; [| apply frame_symbols_NoDup].
  rewrite frame_symbols_get in Hin.
  destruct (first_declaration b name) as [s |]; [| discriminate].
  injection Hin as <-. reflexivity.
Qed.

Lemma printed_size_is_size_of_printed_type_witness :
  size (mkSymbol 8 Sample.double_t)
  = gdb.sizeof (typename (mkSymbol 8 Sample.double_t)).
Proof.
  apply (printed_size_is_size_of_printed_type 0 Sample.frame_work "total").
  cbn. tauto.
Defined.

(** ** The text of a symbol line *)

Lemma chars_append a b :
  list_ascii_of_string (String.append a b)
  = list_ascii_of_string a ++ list_ascii_of_string b.
Proof. induction a as [| c a IH]; cbn; [reflexivity | now rewrite IH]. Qed.

Lemma length_append a b :
  String.length (String.append a b) = (String.length a + String.length b)%nat.
Proof. induction a as [| c a IH]; cbn; [reflexivity | now rewrite IH]. Qed.

Lemma length_spaces n : String.length (spaces n) = n.
Proof. unfold spaces. induction n as [| n IH]; cbn; [reflexivity | now rewrite IH]. Qed.

Lemma number_chars_of_spaces n :
  filter is_number_char (list_ascii_of_string (spaces n)) = [].
Proof.
  unfold spaces. rewrite list_ascii_of_string_of_list_ascii.
  induction n as [| n IH]; [reflexivity | exact IH].
Qed.

(** Grouping only adds separators. *)
Lemma number_chars_of_group3 cs :
  filter is_number_char (group3 cs) = filter is_number_char cs.
Proof.
  assert (H : forall n cs, (List.length cs <= n)%nat ->
                filter is_number_char (group3 cs) = filter is_number_char cs).
  { clear cs. induction n as [| n IH]; intros cs Hlen.
    - destruct cs; [reflexivity | cbn in Hlen; lia].
    - destruct cs as [| a [| b [| c [| d rest]]]]; try reflexivity.
      change (group3 (a :: b :: c :: d :: rest))
        with ([a; b; c] ++ [","%char] ++ group3 (d :: rest)).
      change (a :: b :: c :: d :: rest) with ([a; b; c] ++ d :: rest).
      rewrite !filter_app.
      rewrite (IH (d :: rest)) by (cbn [List.length] in *; lia).
      reflexivity. }
  now apply (H (List.length cs)).
Qed.

Lemma uint_digits_are_number_chars d :
  forallb is_number_char
    (list_ascii_of_string (DecimalString.NilEmpty.string_of_uint d)) = true.
Proof. induction d; cbn; try reflexivity; exact IHd. Qed.

Lemma str_int_nonneg_is_number_chars z :
  0 <= z ->
  forallb is_number_char (list_ascii_of_string (str_int z)) = true.
Proof.
  intros Hz. destruct z as [| p | p]; [reflexivity | | lia].
  unfold str_int. cbn [Z.to_int DecimalString.NilZero.string_of_int].
  unfold DecimalString.NilZero.string_of_uint.
  destruct (Pos.to_uint p); try reflexivity; apply uint_digits_are_number_chars.
Qed.

Lemma str_int_sign z :
  String.append (if z <? 0 then "-" else "") (str_int (Z.abs z)) = str_int z.
Proof. destruct z; reflexivity. Qed.

Lemma read_str_int z :
  DecimalString.NilZero.int_of_string (str_int z) = Some (Z.to_int z).
Proof.
  unfold str_int. destruct z as [| p | p]; [reflexivity | |];
    apply DecimalString.NilZero.isi; cbn [Z.to_int];
    intros [= H]; now apply (Unsigned.to_uint_nonnil p).
Qed.

Lemma number_chars_of_format_thousands z :
  string_of_list_ascii
    (filter is_number_char (list_ascii_of_string (format_thousands z)))
  = str_int z.
Proof.
  unfold format_thousands.
  rewrite chars_append, filter_app, list_ascii_of_string_of_list_ascii.
  rewrite filter_rev, number_chars_of_group3, filter_rev, rev_involutive.
  rewrite (forallb_filter_id is_number_char
             (list_ascii_of_string (str_int (Z.abs z))))
    by (apply str_int_nonneg_is_number_chars; lia).
  rewrite <- (str_int_sign z).
  destruct (z <? 0); cbn [filter list_ascii_of_string app];
    [change (is_number_char "-"%char) with true; cbv iota |];
    cbn [app string_of_list_ascii String.append];
    now rewrite string_of_list_ascii_of_string.
Qed.

(** X12: the size column of a symbol line (format [{size:>14,}]) is at
    least 14 characters wide and, read without its padding and its thousands
    separators, is the decimal writing of the symbol's size; the line itself
    is the column between the bold and reset marks, followed by name and
    type. *)
Theorem size_column_reads_back size name typename :
  render (PrintSymbol size name typename)
  = String.concat ""
      ["    "; ANSI_BOLD; rjust 14 (format_thousands size); ANSI_RESET;
       "   "; name; " ("; ANSI_CYAN; gdb.type_str typename; ANSI_RESET; ")"]
  /\ (14 <= String.length (rjust 14 (format_thousands size)))%nat
  /\ read_number (rjust 14 (format_thousands size)) = Some size.
Proof.
  split; [reflexivity |]. split.
  - unfold rjust. rewrite length_append, length_spaces. lia.
  - unfold read_number, rjust.
    rewrite chars_append, filter_app, number_chars_of_spaces. cbn [app].
    rewrite number_chars_of_format_thousands, read_str_int.
    cbn [option_map]. f_equal. apply DecimalZ.of_to.
Qed.

(** ** The text of a header line *)

Lemma str_int_is_number_chars z :
  forallb is_number_char (list_ascii_of_string (str_int z)) = true.
Proof.
  destruct z as [| p | p]; [reflexivity | now apply str_int_nonneg_is_number_chars |].
  rewrite <- (str_int_sign (Z.neg p)). cbn [Z.ltb Z.compare].
  rewrite chars_append, forallb_app.
  now rewrite str_int_nonneg_is_number_chars by (cbn; lia).
Qed.

(** X13: both kinds of header line (lines 21-37) show the frame number
    after the mark [#], left-aligned in a column of at least 3 characters
    (format [{frame_nr:<3}]); read without its padding the column is the
    decimal writing of the frame number. *)
Theorem frame_number_column_reads_back frame_nr function filename line :
  render (PrintHeader frame_nr function filename line)
  = String.concat ""
      ["  "; ANSI_BOLD; "#"; ljust 3 (str_int frame_nr); ANSI_RESET; " ";
       ANSI_GREEN; function; ANSI_RESET; " @ "; filename; ":"; str_int line]
  /\ render (PrintFallbackHeader frame_nr)
     = String.concat ""
         ["  "; ANSI_BOLD; "#"; ljust 3 (str_int frame_nr); ANSI_RESET;
          " Could not retrieve frame information"]
  /\ (3 <= String.length (ljust 3 (str_int frame_nr)))%nat
  /\ read_number (ljust 3 (str_int frame_nr)) = Some frame_nr.
Proof.
  split; [reflexivity |]. split; [reflexivity |]. split.
  - unfold ljust. rewrite length_append, length_spaces. lia.
  - unfold read_number, ljust.
    rewrite chars_append, filter_app, number_chars_of_spaces, app_nil_r.
    rewrite (forallb_filter_id _ _ (str_int_is_number_chars frame_nr)).
    rewrite string_of_list_ascii_of_string, read_str_int.
    cbn [option_map]. f_equal. apply DecimalZ.of_to.
Qed.
